(** * The taxi-fare notebook and the Triton serving notebook

    A shallow embedding of the code cells of

      - bigquery-samples/dask-bigquery-connector/bigquery_dataproc_dask_xgboost.ipynb
      - vertex-ai-samples/prediction/triton_inference.ipynb

    The dataframe library (pandas / cudf), the gradient-boosting library and
    the Vertex AI SDK are external to the notebooks; the operations the cells
    call are modelled here by their documented behaviour, and the cells
    themselves ([clean], [remap], [must_haves], [query_frags], the train/test
    cells, the model-serving cells) are transcribed statement by statement. *)

From Stdlib Require Import ZArith QArith List String Ascii Bool Lia DecimalString.
From Stdlib Require Import Floats.SpecFloat Sorting.Sorted.
Import ListNotations.

Local Open Scope string_scope.
Local Open Scope Z_scope.

(** ** Errors

    A raised Python exception is [None]; the cells contain no [try], so an
    exception anywhere aborts the whole computation. *)

Definition bind {A B : Type} (m : option A) (k : A -> option B) : option B :=
  match m with
  | Some a => k a
  | None => None
  end.

Notation "x <- m ;; k" := (bind m (fun x => k))
  (at level 61, m at next level, right associativity).

Fixpoint mapM {A B : Type} (f : A -> option B) (l : list A) : option (list B) :=
  match l with
  | [] => Some []
  | a :: l' => b <- f a ;; bs <- mapM f l' ;; Some (b :: bs)
  end.

(** ** Python [str] methods used on column names and dtype names

    Column names are taken to be ASCII, as BigQuery field names are. *)

Module Str.

(** [str.isspace] on one ASCII character: TAB, LF, VT, FF, CR, the four
    separators FS, GS, RS, US, and the blank. *)
Definition is_space (c : ascii) : bool :=
  let n := nat_of_ascii c in
  ((9 <=? n) && (n <=? 13) || (28 <=? n) && (n <=? 32))%nat.

Fixpoint lstrip (s : string) : string :=
  match s with
  | EmptyString => EmptyString
  | String c s' => if is_space c then lstrip s' else s
  end.

Fixpoint rstrip (s : string) : string :=
  match s with
  | EmptyString => EmptyString
  | String c s' =>
      match rstrip s' with
      | EmptyString => if is_space c then EmptyString else String c EmptyString
      | r => String c r
      end
  end.

(** [s.strip()] *)
Definition strip (s : string) : string := rstrip (lstrip s).

Definition lower_char (c : ascii) : ascii :=
  let n := nat_of_ascii c in
  if ((65 <=? n) && (n <=? 90))%nat then ascii_of_nat (n + 32) else c.

(** [s.lower()] *)
Fixpoint lower (s : string) : string :=
  match s with
  | EmptyString => EmptyString
  | String c s' => String (lower_char c) (lower s')
  end.

(** [sub in s] *)
Fixpoint contains (sub s : string) : bool :=
  prefix sub s ||
  match s with
  | EmptyString => false
  | String _ s' => contains sub s'
  end.

(** [x in l] for a list of strings *)
Definition mem (x : string) (l : list string) : bool :=
  existsb (String.eqb x) l.

(** [s.isspace()] or [s == ''] *)
Fixpoint all_space (s : string) : bool :=
  match s with
  | EmptyString => true
  | String c s' => is_space c && all_space s'
  end.

(** No label occurs twice. *)
Fixpoint distinct (l : list string) : bool :=
  match l with
  | [] => true
  | x :: l' => negb (mem x l') && distinct l'
  end.

End Str.

(** ** Python dicts with string keys (only lookups are used) *)

Module Dict.

Definition t (V : Type) := list (string * V).

Fixpoint get {V : Type} (d : t V) (k : string) : option V :=
  match d with
  | [] => None
  | (k', v) :: d' => if String.eqb k k' then Some v else get d' k
  end.

Definition keys {V : Type} (d : t V) : list string := map fst d.

(** [k in d] *)
Definition mem {V : Type} (k : string) (d : t V) : bool :=
  match get d k with Some _ => true | None => false end.

End Dict.

(** ** Cell values *)

Inductive value : Type :=
| VNull                      (* None, <NA>, NaT *)
| VInt (z : Z)               (* an integer of any width *)
| VFloat (f : spec_float)    (* an IEEE-754 number; NaN is S754_nan *)
| VStr (s : string)          (* a Python str in an object column *)
| VTime (ms : Z).            (* a timestamp, milliseconds since the epoch *)

(** What [fillna] treats as missing: nulls, and NaN in float data. *)
Definition is_null (v : value) : bool :=
  match v with
  | VNull => true
  | VFloat S754_nan => true
  | _ => false
  end.

(** A cell-wise conversion under which a missing value stays missing. *)
Definition keeps_nulls (f : value -> option value) : Prop :=
  forall v v', f v = Some v' -> is_null v = true -> is_null v' = true.

(** int64 -> int32 keeps the low 32 bits (two's complement). *)
Definition wrap32 (z : Z) : Z := (z + 2 ^ 31) mod 2 ^ 32 - 2 ^ 31.

(** Rounding to binary32 (24-bit significand, emax = 128), to nearest even. *)
Definition round32 (f : spec_float) : spec_float :=
  match f with
  | S754_finite s m e => binary_round 24 128 s m e
  | _ => f
  end.

Definition float32_of_Z (z : Z) : spec_float := binary_normalize 24 128 z 0 false.

(** ** Series and dataframes *)

Record column : Type := mkcol {
  col_name : string;
  col_dtype : string;        (* str(series.dtype) *)
  col_values : list value
}.

Record dataframe : Type := mkdf {
  df_index : list Z;         (* the row labels, one per row *)
  df_columns : list column
}.

Definition set_name (n : string) (c : column) : column :=
  mkcol n (col_dtype c) (col_values c).

Module Frame.

(** [df.columns] *)
Definition columns (df : dataframe) : list string :=
  map col_name (df_columns df).

(** [df.rename(columns=mapper)]: a name that is a key of [mapper] is
    replaced by its value, any other name is kept. *)
Definition rename (mapper : Dict.t string) (df : dataframe) : dataframe :=
  mkdf (df_index df)
       (map (fun c =>
               match Dict.get mapper (col_name c) with
               | Some n => set_name n c
               | None => c
               end) (df_columns df)).

Definition named (col : string) (c : column) : bool :=
  String.eqb (col_name c) col.

(** [df.drop(col, axis=1)]: removes every column labelled [col]; KeyError
    when there is none. *)
Definition drop (df : dataframe) (col : string) : option dataframe :=
  if existsb (named col) (df_columns df)
  then Some (mkdf (df_index df)
                  (filter (fun c => negb (named col c)) (df_columns df)))
  else None.

(** [df[col]] where a Series is expected: KeyError when no column has the
    label; with a repeated label the selection is a DataFrame, on which the
    [.dtype] and [.astype(...)] that follow in [clean] raise. *)
Definition getitem (df : dataframe) (col : string) : option column :=
  match filter (named col) (df_columns df) with
  | [c] => Some c
  | _ => None
  end.

(** [df[col] = s] for an existing label: the column is replaced in place. *)
Definition setitem (df : dataframe) (col : string) (s : column) : dataframe :=
  mkdf (df_index df)
       (map (fun c => if named col c then set_name col s else c)
            (df_columns df)).

(** [df[names]]: the listed columns, in the listed order. *)
Definition select (df : dataframe) (names : list string) : option dataframe :=
  cs <- mapM (getitem df) names ;;
  Some (mkdf (df_index df) cs).

(** [series.fillna(-1)]. In a floating dtype (float32, Float64, ...) the
    fill value is the float -1.0, anywhere else the integer -1. *)
Definition fill_value (dtype : string) : value :=
  if Str.contains "float" (Str.lower dtype)
  then VFloat (float32_of_Z (-1)) else VInt (-1).

(** The dtypes that hold the number -1 as one of their own values: the
    integer and the floating ones (int32, Int64, float32, Float64, ...). *)
Definition holds_number (dtype : string) : bool :=
  Str.contains "int" (Str.lower dtype) || Str.contains "float" (Str.lower dtype).

(** A series without a missing cell comes back as it is. Where a cell is
    filled, an integer or floating series keeps its dtype; a series of any
    other dtype (datetime64[ns], bool, ...) cannot hold -1 and comes back as
    dtype object, holding -1 next to its other cells. *)
Definition fillna_minus_one (c : column) : column :=
  mkcol (col_name c)
        (if existsb is_null (col_values c) && negb (holds_number (col_dtype c))
         then "object" else col_dtype c)
        (map (fun v => if is_null v then fill_value (col_dtype c) else v)
             (col_values c)).

End Frame.

(** ** [series.astype(dtype)] for the three targets [clean] asks for

    Reading a number or a timestamp out of a Python [str] is the library's
    business: the two readers are parameters. A reader returns [None] where
    the library raises ValueError. *)

Section Clean.

Variable read_float : string -> option spec_float.
Variable read_datetime : string -> option Z.

Definition to_float32 (v : value) : option value :=
  match v with
  | VNull => Some VNull
  | VInt z => Some (VFloat (float32_of_Z z))
  | VFloat f => Some (VFloat (round32 f))
  | VStr s => f <- read_float s ;; Some (VFloat f)
  | VTime _ => None
  end.

Definition to_int32 (v : value) : option value :=
  match v with
  | VNull => Some VNull
  | VInt z => Some (VInt (wrap32 z))
  | _ => None
  end.

Definition to_datetime_ms (v : value) : option value :=
  match v with
  | VNull => Some VNull
  | VStr s => t <- read_datetime s ;; Some (VTime t)
  | VTime t => Some (VTime t)
  | _ => None
  end.

Definition caster (dtype : string) : option (value -> option value) :=
  if String.eqb dtype "float32" then Some to_float32
  else if String.eqb dtype "int32" then Some to_int32
  else if String.eqb dtype "datetime64[ms]" then Some to_datetime_ms
  else None.

Definition astype (s : column) (dtype : string) : option column :=
  f <- caster dtype ;;
  vs <- mapM f (col_values s) ;;
  Some (mkcol (col_name s) dtype vs).

(** ** The cell defining [clean] *)

(** [for col in cols: df_part = body(df_part, col)] *)
Fixpoint for_each (body : dataframe -> string -> option dataframe)
         (cols : list string) (df_part : dataframe) : option dataframe :=
  match cols with
  | [] => Some df_part
  | col :: rest => df_part' <- body df_part col ;; for_each body rest df_part'
  end.

(** One iteration of the loop of [clean]; [continue] ends the iteration. *)
Definition clean_body (must_haves : Dict.t string)
           (df_part : dataframe) (col : string) : option dataframe :=
  (* drop anything not in our expected list *)
  if negb (Dict.mem col must_haves) then Frame.drop df_part col
  else
    s <- Frame.getitem df_part col ;;
    (* fixes datetime error found by Ty Mckercher and fixed by Paul Mahler *)
    if String.eqb (col_dtype s) "object"
       && Str.mem col ["pickup_datetime"; "dropoff_datetime"]
    then
      s' <- astype s "datetime64[ms]" ;;
      Some (Frame.setitem df_part col s')
    else
      (* if column was read as a string, recast as float *)
      if String.eqb (col_dtype s) "object" then
        s' <- astype s "float32" ;;
        Some (Frame.setitem df_part col s')
      else
        (* downcast from 64bit to 32bit types
           Tesla T4 are faster on 32bit ops *)
        df1 <- (if Str.contains "int" (col_dtype s)
                then s' <- astype s "int32" ;;
                     Some (Frame.setitem df_part col s')
                else Some df_part) ;;
        s1 <- Frame.getitem df1 col ;;
        df2 <- (if Str.contains "float" (col_dtype s1)
                then s' <- astype s1 "float32" ;;
                     Some (Frame.setitem df1 col s')
                else Some df1) ;;
        s2 <- Frame.getitem df2 col ;;
        Some (Frame.setitem df2 col (Frame.fillna_minus_one s2)).

(** [tmp = {col: col.strip().lower() for col in list(df_part.columns)}] *)
Definition tmp_of (df_part : dataframe) : Dict.t string :=
  map (fun col => (col, Str.lower (Str.strip col))) (Frame.columns df_part).

Definition clean (df_part : dataframe) (remap must_haves : Dict.t string)
  : option dataframe :=
  let tmp := tmp_of df_part in
  let df_part := Frame.rename tmp df_part in
  (* rename using the supplied mapping *)
  let df_part := Frame.rename remap df_part in
  (* iterate through columns in this df partition *)
  for_each (clean_body must_haves) (Frame.columns df_part) df_part.

End Clean.

(** ** What [clean] does to one column

    The loop of [clean] addresses columns by label in a frame it rebinds at
    every iteration. The definitions below say what it does column by column;
    [clean_spec] proves that the loop computes exactly this. *)

(** The name a column ends up with: stripped, lowercased, then remapped. *)
Definition final_name (remap : Dict.t string) (n : string) : string :=
  let n' := Str.lower (Str.strip n) in
  match Dict.get remap n' with
  | Some m => m
  | None => n'
  end.

Definition renamed (remap : Dict.t string) (df : dataframe) : list column :=
  map (fun c => set_name (final_name remap (col_name c)) c) (df_columns df).

Inductive branch : Type :=
| Dropped              (* not in must_haves *)
| DatetimeCast         (* object dtype, a datetime column *)
| StringToFloat        (* any other object dtype *)
| NumericDowncast.     (* every other dtype: downcast, then null-fill *)

Definition branch_of (must_haves : Dict.t string) (c : column) : branch :=
  if negb (Dict.mem (col_name c) must_haves) then Dropped
  else if String.eqb (col_dtype c) "object" then
         if Str.mem (col_name c) ["pickup_datetime"; "dropoff_datetime"]
         then DatetimeCast else StringToFloat
       else NumericDowncast.

(** ** What each branch does to a column

    The effect of the four branches, written cell by cell from the comments
    of the loop ("fixes datetime error", "recast as float", "downcast from
    64bit to 32bit types", fillna(-1)) and not through [astype], [caster] or
    [Frame.fillna_minus_one]: [v] is a cell of the column that arrives, [v']
    the cell in its place afterwards. *)

Definition datetime_cast (read_datetime : string -> option Z) (v v' : value) : Prop :=
  match v with
  | VNull => v' = VNull
  | VStr t => exists ms, read_datetime t = Some ms /\ v' = VTime ms
  | VTime ms => v' = VTime ms
  | VInt _ | VFloat _ => False
  end.

Definition float_cast (read_float : string -> option spec_float) (v v' : value) : Prop :=
  match v with
  | VNull => v' = VNull
  | VInt z => v' = VFloat (float32_of_Z z)
  | VFloat f => v' = VFloat (round32 f)
  | VStr t => exists f, read_float t = Some f /\ v' = VFloat f
  | VTime _ => False
  end.

Definition int_cast (v v' : value) : Prop :=
  match v with
  | VNull => v' = VNull
  | VInt z => v' = VInt (wrap32 z)
  | VFloat _ | VStr _ | VTime _ => False
  end.

(** A missing cell is replaced by [fill], any other cell is kept. *)
Definition filled (fill v v' : value) : Prop :=
  match v with
  | VNull | VFloat S754_nan => v' = fill
  | _ => v' = v
  end.

Definition cell_effect (read_float : string -> option spec_float)
           (read_datetime : string -> option Z)
           (b : branch) (dtype : string) (v v' : value) : Prop :=
  match b with
  | Dropped => False
  | DatetimeCast => datetime_cast read_datetime v v'
  | StringToFloat => float_cast read_float v v'
  | NumericDowncast =>
      if Str.contains "int" dtype then
        exists v1, int_cast v v1 /\ filled (VInt (-1)) v1 v'
      else if Str.contains "float" dtype then
        exists v1, float_cast read_float v v1 /\
                   filled (VFloat (float32_of_Z (-1))) v1 v'
      else
        filled (VInt (-1)) v v' \/ filled (VFloat (float32_of_Z (-1))) v v'
  end.

(** The dtype of the column [s] that takes the place of [c]. *)
Definition dtype_effect (b : branch) (c s : column) : Prop :=
  match b with
  | Dropped => False
  | DatetimeCast => col_dtype s = "datetime64[ms]"
  | StringToFloat => col_dtype s = "float32"
  | NumericDowncast =>
      if Str.contains "int" (col_dtype c) then col_dtype s = "int32"
      else if Str.contains "float" (col_dtype c) then col_dtype s = "float32"
      else (forall v, In v (col_values c) -> is_null v = false) ->
           col_dtype s = col_dtype c
  end.

(** The columns [cs] that take the place of [c]: none when it is dropped,
    otherwise one, under the same label and with as many cells. *)
Definition branch_effect (read_float : string -> option spec_float)
           (read_datetime : string -> option Z)
           (b : branch) (c : column) (cs : list column) : Prop :=
  match b with
  | Dropped => cs = []
  | _ => exists s, cs = [s] /\ col_name s = col_name c /\
                   dtype_effect b c s /\
                   Forall2 (cell_effect read_float read_datetime b (col_dtype c))
                           (col_values c) (col_values s)
  end.

Section CleanByColumn.

Variable read_float : string -> option spec_float.
Variable read_datetime : string -> option Z.

Definition downcast (c : column) : option column :=
  s1 <- (if Str.contains "int" (col_dtype c)
         then astype read_float read_datetime c "int32" else Some c) ;;
  s2 <- (if Str.contains "float" (col_dtype s1)
         then astype read_float read_datetime s1 "float32" else Some s1) ;;
  Some (Frame.fillna_minus_one s2).

(** The columns that replace [c]: none when it is dropped, one otherwise. *)
Definition clean_col (must_haves : Dict.t string) (c : column)
  : option (list column) :=
  match branch_of must_haves c with
  | Dropped => Some []
  | DatetimeCast => s <- astype read_float read_datetime c "datetime64[ms]" ;; Some [s]
  | StringToFloat => s <- astype read_float read_datetime c "float32" ;; Some [s]
  | NumericDowncast => s <- downcast c ;; Some [s]
  end.

(** One pass over the renamed columns, each through its one branch, the
    results laid side by side in input order. *)
Definition single_pass (df_part : dataframe) (remap must_haves : Dict.t string)
  : option dataframe :=
  css <- mapM (clean_col must_haves) (renamed remap df_part) ;;
  Some (mkdf (df_index df_part) (List.concat css)).

End CleanByColumn.

(** ** The cell defining [remap], [must_haves] and [query_frags] *)

Definition remap : Dict.t string :=
  [ ("tpep_pickup_datetime", "pickup_datetime");
    ("tpep_dropoff_datetime", "dropoff_datetime");
    ("ratecodeid", "rate_code") ].

Definition must_haves : Dict.t string :=
  [ ("pickup_datetime", "datetime64[ms]");
    ("dropoff_datetime", "datetime64[ms]");
    ("passenger_count", "int32");
    ("trip_distance", "float32");
    ("pickup_longitude", "float32");
    ("pickup_latitude", "float32");
    ("rate_code", "int32");
    ("dropoff_longitude", "float32");
    ("dropoff_latitude", "float32");
    ("fare_amount", "float32") ].

(** The query language of [df.query], as far as the fragments use it. *)
Inductive expr : Type :=
| Gt (col : string) (k : Z)        (* col > k *)
| Lt (col : string) (k : Z)        (* col < k *)
| And (a b : expr).                (* a and b *)

Definition query_frags : list expr :=
  [ And (Gt "fare_amount" 0) (Lt "fare_amount" 500);
    And (Gt "passenger_count" 0) (Lt "passenger_count" 6);
    And (Gt "pickup_longitude" (-75)) (Lt "pickup_longitude" (-73));
    And (Gt "dropoff_longitude" (-75)) (Lt "dropoff_longitude" (-73));
    And (Gt "pickup_latitude" 40) (Lt "pickup_latitude" 42);
    And (Gt "dropoff_latitude" 40) (Lt "dropoff_latitude" 42) ].

(** [' and '.join(frags)], for a non-empty list: [and] associates to the
    left. *)
Definition join_and (frags : list expr) : option expr :=
  match frags with
  | [] => None
  | e :: es => Some (fold_left And es e)
  end.


Definition fields : list string :=
  [ "passenger_count"; "trip_distance"; "pickup_longitude"; "pickup_latitude";
    "rate_code"; "dropoff_longitude"; "dropoff_latitude"; "fare_amount" ].

(** ** [df.query(expr)] *)

Module Query.

(** How an IEEE-754 number compares with an integer literal: by value,
    whatever the width of the float ([m * 2^e] against [k], cross-multiplied
    so that only integers are compared). NaN compares with nothing. *)
Definition float_cmp (f : spec_float) (k : Z) : option comparison :=
  match f with
  | S754_nan => None
  | S754_zero _ => Some (0 ?= k)
  | S754_infinity s => Some (if s then Datatypes.Lt else Datatypes.Gt)
  | S754_finite s m e =>
      let n := if s then Z.neg m else Z.pos m in
      Some (if 0 <=? e then n * 2 ^ e ?= k else n ?= k * 2 ^ (- e))
  end.

(** [v > k] and [v < k] on one cell. A comparison with a missing value or
    a NaN is false; ordering a str or a timestamp against an int raises. *)
Definition gt (k : Z) (v : value) : option bool :=
  match v with
  | VNull => Some false
  | VInt z => Some (k <? z)
  | VFloat f => Some (match float_cmp f k with Some Datatypes.Gt => true | _ => false end)
  | VStr _ | VTime _ => None
  end.

Definition lt (k : Z) (v : value) : option bool :=
  match v with
  | VNull => Some false
  | VInt z => Some (z <? k)
  | VFloat f => Some (match float_cmp f k with Some Datatypes.Lt => true | _ => false end)
  | VStr _ | VTime _ => None
  end.

Fixpoint and_masks (m1 m2 : list bool) : list bool :=
  match m1, m2 with
  | b1 :: m1', b2 :: m2' => (b1 && b2) :: and_masks m1' m2'
  | _, _ => []
  end.

(** The boolean mask of an expression, one entry per row. *)
Fixpoint eval (df : dataframe) (e : expr) : option (list bool) :=
  match e with
  | Gt col k => s <- Frame.getitem df col ;; mapM (gt k) (col_values s)
  | Lt col k => s <- Frame.getitem df col ;; mapM (lt k) (col_values s)
  | And a b => m1 <- eval df a ;; m2 <- eval df b ;; Some (and_masks m1 m2)
  end.

(** The entries of [l] whose mask entry is [True], in order. *)
Fixpoint keep {A : Type} (mask : list bool) (l : list A) : list A :=
  match mask, l with
  | b :: mask', a :: l' => if b then a :: keep mask' l' else keep mask' l'
  | _, _ => []
  end.

Definition apply_mask (mask : list bool) (df : dataframe) : dataframe :=
  mkdf (keep mask (df_index df))
       (map (fun c => mkcol (col_name c) (col_dtype c) (keep mask (col_values c)))
            (df_columns df)).

Definition query (df : dataframe) (e : expr) : option dataframe :=
  mask <- eval df e ;;
  Some (apply_mask mask df).

(** The positions of the rows a mask keeps, in increasing order. *)
Definition kept_rows (mask : list bool) : list nat :=
  keep mask (seq 0 (List.length mask)).

End Query.

(** The value of column [col] in the row at position [i]. *)
Definition cell (df : dataframe) (col : string) (i : nat) : option value :=
  s <- Frame.getitem df col ;; nth_error (col_values s) i.

(** The meaning of a query expression at the row at position [i]. *)
Fixpoint holds (df : dataframe) (i : nat) (e : expr) : Prop :=
  match e with
  | Gt col k => exists v, cell df col i = Some v /\ Query.gt k v = Some true
  | Lt col k => exists v, cell df col i = Some v /\ Query.lt k v = Some true
  | And a b => holds df i a /\ holds df i b
  end.

(** The columns a query expression reads. *)
Fixpoint cols_of (e : expr) : list string :=
  match e with
  | Gt col _ | Lt col _ => [col]
  | And a b => cols_of a ++ cols_of b
  end.

(** ** The range predicates, in the words of the data model

    The number a finite float stands for, as a rational; infinities and NaN
    stand for none. *)

Definition float_value (f : spec_float) : option Q :=
  match f with
  | S754_zero _ => Some (inject_Z 0)
  | S754_finite s m e =>
      let n := if s then Z.neg m else Z.pos m in
      Some (match e with
            | Z0 => inject_Z n
            | Zpos p => inject_Z (n * Z.pos (2 ^ p))
            | Zneg p => Qmake n (2 ^ p)
            end)
  | S754_infinity _ | S754_nan => None
  end.

(** A value is strictly between two integer bounds when it is a number
    (not missing, not NaN, not infinite) greater than the first and less
    than the second. *)
Definition strictly_between (lo hi : Z) (v : option value) : Prop :=
  match v with
  | Some (VInt z) => lo < z < hi
  | Some (VFloat f) =>
      exists q, float_value f = Some q /\
                Qlt (inject_Z lo) q /\ Qlt q (inject_Z hi)
  | _ => False
  end.

Definition row_in_range (df : dataframe) (i : nat) : Prop :=
  strictly_between 0 500 (cell df "fare_amount" i) /\
  strictly_between 0 6 (cell df "passenger_count" i) /\
  strictly_between (-75) (-73) (cell df "pickup_longitude" i) /\
  strictly_between (-75) (-73) (cell df "dropoff_longitude" i) /\
  strictly_between 40 42 (cell df "pickup_latitude" i) /\
  strictly_between 40 42 (cell df "dropoff_latitude" i).

(** ** The ETL cell

    [taxi_df = clean(taxi_df, remap, must_haves)]
    [taxi_df = taxi_df.query(' and '.join(query_frags))]
    [taxi_df = taxi_df[fields]] *)

Definition filter_step (taxi_df : dataframe) : option dataframe :=
  q <- join_and query_frags ;;
  Query.query taxi_df q.

Section Etl.

Variable read_float : string -> option spec_float.
Variable read_datetime : string -> option Z.

Definition etl (taxi_df : dataframe) : option dataframe :=
  taxi_df <- clean read_float read_datetime taxi_df remap must_haves ;;
  taxi_df <- filter_step taxi_df ;;
  Frame.select taxi_df fields.

End Etl.

(** ** The cell that separates features and labels

    [X = taxi_df[taxi_df.columns.difference([response_id])].astype(np.float32)]
    [y = taxi_df[response_id].astype(response_dtype)] *)

Module Index.





End Index.

Section Features.

Variable read_float : string -> option spec_float.
Variable read_datetime : string -> option Z.



End Features.

(** ** Stand-in readers for the examples

    The examples below need some reader to run [clean] on a concrete frame.
    These read plain decimal integers ("12", "-3") and raise on anything
    else; no general statement depends on them. *)

Module Sample.

Fixpoint digits (s : string) (acc : Z) : option Z :=
  match s with
  | EmptyString => Some acc
  | String c s' =>
      let n := Z.of_nat (nat_of_ascii c) in
      if (48 <=? n) && (n <=? 57) then digits s' (10 * acc + (n - 48)) else None
  end.

Definition read_int (s : string) : option Z :=
  match s with
  | EmptyString => None
  | String "-" EmptyString => None
  | String "-" s' => z <- digits s' 0 ;; Some (- z)
  | _ => digits s 0
  end.

Definition read_float (s : string) : option spec_float :=
  z <- read_int s ;; Some (float32_of_Z z).

Definition read_datetime (s : string) : option Z := read_int s.

Definition clean := clean read_float read_datetime.

Definition etl := etl read_float read_datetime.

End Sample.

(** ** Notebook 1, from the split to the evaluation

    [X] and [y] are the feature frame and the label series the cell before
    the split computes from [taxi_df]. Rebinding a Python name is a [let]
    that shadows the earlier one. *)

Record DaskDMatrix : Type := mkDMatrix {
  dm_data : dataframe;
  dm_label : column
}.

(** The names bound in the kernel once the cells have run top to bottom. *)
Record kernel (Booster : Type) : Type := mkKernel {
  k_X_train : dataframe;
  k_X_test : dataframe;
  k_y_train : column;
  k_y_test : column;
  k_dmatrix_train : DaskDMatrix;
  k_dmatrix_test : DaskDMatrix;
  k_model_xgb : Booster;
  k_y_predict : list value;
  k_t : column                 (* the labels the predictions are scored against *)
}.

Arguments mkKernel {Booster}.
Arguments k_X_train {Booster}.
Arguments k_X_test {Booster}.
Arguments k_y_train {Booster}.
Arguments k_y_test {Booster}.
Arguments k_dmatrix_train {Booster}.
Arguments k_dmatrix_test {Booster}.
Arguments k_model_xgb {Booster}.
Arguments k_y_predict {Booster}.
Arguments k_t {Booster}.

Definition params : Dict.t string :=
  [ ("max_depth", "8"); ("max_leaves", "2 ** 8"); ("alpha", "0.9");
    ("eta", "0.1"); ("gamma", "0.1"); ("learning_rate", "0.1");
    ("subsample", "1"); ("reg_lambda", "1"); ("scale_pos_weight", "2");
    ("min_child_weight", "30"); ("tree_method", "gpu_hist");
    ("objective", "reg:squaredlogerror"); ("grow_policy", "lossguide") ].

Section Notebook1.

Variable Booster : Type.

(** [dask_ml.model_selection.train_test_split(X, y, train_size, random_state,
    shuffle)], the train size in percent. *)
Variable train_test_split :
  dataframe -> column -> Z -> Z -> bool ->
  dataframe * dataframe * column * column.

(** [xgb.dask.train(client, params, dtrain, num_boost_round, evals)['booster']] *)
Variable xgb_train :
  Dict.t string -> DaskDMatrix -> Z -> list (DaskDMatrix * string) -> Booster.

(** [xgb.dask.predict(client, booster, data)] *)
Variable xgb_predict : Booster -> DaskDMatrix -> list value.

(** [collection.persist()] computes the collection and keeps it in memory;
    its contents are those of the collection. *)
Definition persist {A : Type} (a : A) : A := a.

Definition split_train_evaluate (X : dataframe) (y : column) : kernel Booster :=
  (* from dask_ml.model_selection import train_test_split *)
  let '(X_train, X_test, y_train, y_test) :=
    train_test_split X y 80 42 true in
  (* next cell *)
  let X_train := persist X in
  let X_test := persist X in
  let y_train := persist y in
  let y_test := persist y in
  (* import xgboost as xgb *)
  let dmatrix_train := mkDMatrix X_train y_train in
  let dmatrix_test := mkDMatrix X_test y_test in
  let model_xgb :=
    xgb_train params dmatrix_train 2000
              [(dmatrix_train, "train"); (dmatrix_test, "test")] in
  (* inferencing *)
  let y_predict := xgb_predict model_xgb dmatrix_test in
  let t := y_test in
  mkKernel X_train X_test y_train y_test dmatrix_train dmatrix_test
           model_xgb y_predict t.

End Notebook1.

(** A stand-in splitter for the examples: no shuffle, the first
    [train_size] percent of the rows train, the rest test. *)
Module SampleSplit.

Definition rows_of (df : dataframe) (f : forall A : Type, list A -> list A) : dataframe :=
  mkdf (f Z (df_index df))
       (map (fun c => mkcol (col_name c) (col_dtype c) (f value (col_values c)))
            (df_columns df)).

Definition series_of (c : column) (f : forall A : Type, list A -> list A) : column :=
  mkcol (col_name c) (col_dtype c) (f value (col_values c)).

Definition train_test_split (X : dataframe) (y : column)
           (train_size random_state : Z) (shuffle : bool)
  : dataframe * dataframe * column * column :=
  let n := Z.to_nat (train_size * Z.of_nat (List.length (df_index X)) / 100) in
  (rows_of X (fun A => firstn n), rows_of X (fun A => skipn n),
   series_of y (fun A => firstn n), series_of y (fun A => skipn n)).

(** A booster that is nothing but the matrix it was fitted on, and a
    predictor that answers with that matrix's labels. *)
Definition xgb_train (p : Dict.t string) (dtrain : DaskDMatrix) (rounds : Z)
           (evals : list (DaskDMatrix * string)) : DaskDMatrix := dtrain.

Definition xgb_predict (booster data : DaskDMatrix) : list value :=
  col_values (dm_label booster).

End SampleSplit.

(** ** Notebook 2: the Vertex AI calls

    The service is a store of models, endpoints and deployments; every call
    the notebook makes is appended to a log. A call that names a resource the
    service does not have fails. The resource names the service hands out
    are its own choice: they are parameters. *)

Module Vertex.

Record Model : Type := mkModel {
  model_display_name : string;
  serving_container_image_uri : string;
  serving_container_args : list string;
  artifact_uri : string;
  model_resource : string
}.

Record Endpoint : Type := mkEndpoint {
  endpoint_display_name : string;
  endpoint_project : string;
  endpoint_location : string;
  endpoint_name : string         (* endpoint.name: the endpoint's id *)
}.

Record Deployment : Type := mkDeployment {
  dep_model : string;
  dep_endpoint : string;
  deployed_model_display_name : string;
  machine_type : string;
  min_replica_count : Z;
  max_replica_count : Z;
  traffic_percentage : Z;
  accelerator_type : string;
  accelerator_count : Z
}.

Inductive call : Type :=
| Init (project location staging_bucket : string)
| ModelUpload (m : Model)
| EndpointCreate (e : Endpoint)
| ModelDeploy (d : Deployment)
| RawPredict (uri body_file : string).

Record cloud : Type := mkCloud {
  sdk_project : string;      (* what vertex_ai.init last set *)
  sdk_location : string;
  models : list Model;
  endpoints : list Endpoint;
  deployments : list Deployment;
  log : list call
}.

Definition M (A : Type) : Type := cloud -> option (A * cloud).

Definition ret {A : Type} (a : A) : M A := fun c => Some (a, c).

Definition bindM {A B : Type} (m : M A) (k : A -> M B) : M B :=
  fun c => match m c with
           | Some (a, c') => k a c'
           | None => None
           end.

Definition logged (e : call) (c : cloud) : cloud :=
  mkCloud (sdk_project c) (sdk_location c)
          (models c) (endpoints c) (deployments c) (log c ++ [e]).

(** [vertex_ai.init(project, location, staging_bucket)]: the project and
    location of every resource created afterwards. *)
Definition init (project location staging_bucket : string) : M unit :=
  fun c => Some (tt, logged (Init project location staging_bucket)
                            (mkCloud project location
                                     (models c) (endpoints c) (deployments c) (log c))).

Section Service.

Variable model_id : cloud -> string.
Variable endpoint_id : cloud -> string.

(** [vertex_ai.Model.upload(...)]: registers a model under a resource name
    of the service's choice. *)
Definition Model_upload (display_name image_uri : string) (args : list string)
           (artifacts : string) : M Model :=
  fun c =>
    let m := mkModel display_name image_uri args artifacts (model_id c) in
    Some (m, logged (ModelUpload m)
                    (mkCloud (sdk_project c) (sdk_location c)
                             (models c ++ [m]) (endpoints c) (deployments c) (log c))).

(** [vertex_ai.Endpoint.create(display_name)]: an endpoint in the project
    and location of the session, under an id of the service's choice. *)
Definition Endpoint_create (display_name : string) : M Endpoint :=
  fun c =>
    let e := mkEndpoint display_name (sdk_project c) (sdk_location c)
                        (endpoint_id c) in
    Some (e, logged (EndpointCreate e)
                    (mkCloud (sdk_project c) (sdk_location c)
                             (models c) (endpoints c ++ [e]) (deployments c) (log c))).

End Service.

Definition has_model (c : cloud) (id : string) : bool :=
  existsb (fun m => String.eqb (model_resource m) id) (models c).

Definition has_endpoint (c : cloud) (id : string) : bool :=
  existsb (fun e => String.eqb (endpoint_name e) id) (endpoints c).

Definition serves (c : cloud) (id : string) : bool :=
  existsb (fun d => String.eqb (dep_endpoint d) id) (deployments c).

(** [model.deploy(endpoint=endpoint, ...)]: NotFound unless both the model
    and the endpoint exist. *)
Definition deploy (model : Model) (endpoint : Endpoint)
           (display_name machine : string) (min_r max_r traffic : Z)
           (acc_type : string) (acc_count : Z) : M unit :=
  fun c =>
    if has_model c (model_resource model) && has_endpoint c (endpoint_name endpoint)
    then
      let d := mkDeployment (model_resource model) (endpoint_name endpoint)
                            display_name machine min_r max_r traffic
                            acc_type acc_count in
      Some (tt, logged (ModelDeploy d)
                       (mkCloud (sdk_project c) (sdk_location c)
                                (models c) (endpoints c) (deployments c ++ [d]) (log c)))
    else None.

(** The address at which the service takes rawPredict requests for an
    endpoint: the regional host of the endpoint's location, then
    projects/PROJECT/locations/LOCATION/endpoints/ENDPOINT:rawPredict. *)
Definition raw_predict_url (e : Endpoint) : string :=
  "https://" ++ endpoint_location e ++ "-aiplatform.googleapis.com/v1/projects/"
  ++ endpoint_project e ++ "/locations/" ++ endpoint_location e
  ++ "/endpoints/" ++ endpoint_name e ++ ":rawPredict".

(** The endpoints a request sent to [uri] reaches. *)
Definition addressed (c : cloud) (uri : string) : list Endpoint :=
  filter (fun e => String.eqb (raw_predict_url e) uri) (endpoints c).

(** [curl -X POST {uri} -d @body_file]: the request carries nothing but the
    URL and the body. It is answered when the URL is the address of an
    endpoint that serves a model. *)
Definition raw_predict (uri body_file : string) : M bool :=
  fun c => Some (existsb (fun e => serves c (endpoint_name e)) (addressed c uri),
                 logged (RawPredict uri body_file) c).

(** *** Order of the calls in a log

    What a call depends on: a deployment on the upload of its model and on
    the creation of its endpoint; a prediction request on the creation of
    the endpoint its URL addresses and on a deployment to that endpoint. *)

Definition uploads (id : string) (e : call) : bool :=
  match e with ModelUpload m => String.eqb (model_resource m) id | _ => false end.

Definition creates (id : string) (e : call) : bool :=
  match e with EndpointCreate e' => String.eqb (endpoint_name e') id | _ => false end.

Definition deploys_to (id : string) (e : call) : bool :=
  match e with ModelDeploy d => String.eqb (dep_endpoint d) id | _ => false end.

Definition creates_addressed (before : list call) (uri : string) (e : call) : bool :=
  match e with
  | EndpointCreate e' =>
      String.eqb (raw_predict_url e') uri
      && existsb (deploys_to (endpoint_name e')) before
  | _ => false
  end.

Definition depends_met (before : list call) (e : call) : bool :=
  match e with
  | Init _ _ _ | ModelUpload _ | EndpointCreate _ => true
  | ModelDeploy d =>
      existsb (uploads (dep_model d)) before
      && existsb (creates (dep_endpoint d)) before
  | RawPredict uri _ => existsb (creates_addressed before uri) before
  end.

(** Every call of [calls] comes after the calls it depends on, [before]
    being what was called earlier. *)
Fixpoint in_order (before calls : list call) : bool :=
  match calls with
  | [] => true
  | e :: rest => depends_met before e && in_order (before ++ [e]) rest
  end.

End Vertex.

Notation "x <~ m ;; k" := (Vertex.bindM m (fun x => k))
  (at level 61, m at next level, right associativity).

Module Notebook2.
Import Vertex.

Definition PROJECT_ID : string := "merlin-on-gcp".
Definition REGION : string := "us-central1".
Definition STAGING_BUCKET : string := "triton_model_repository".

Definition MODEL_ARTIFACTS_REPOSITORY : string :=
  "gs://" ++ STAGING_BUCKET ++ "/models".

Definition MODEL_NAME : string := "simple".
Definition MODEL_VERSION : string := "v00".
Definition MODEL_DISPLAY_NAME : string :=
  "triton-" ++ MODEL_NAME ++ "-" ++ MODEL_VERSION.
Definition ENDPOINT_DISPLAY_NAME : string :=
  "endpoint-" ++ MODEL_NAME ++ "-" ++ MODEL_VERSION.

Definition IMAGE_NAME : string := "triton-deploy".
Definition IMAGE_URI : string := "gcr.io/" ++ PROJECT_ID ++ "/" ++ IMAGE_NAME.

(** [f'https://{REGION}-aiplatform.googleapis.com/v1/projects/{PROJECT_ID}/locations/{REGION}/endpoints/{endpoint.name}:rawPredict'] *)
Definition uri_of (endpoint : Endpoint) : string :=
  "https://" ++ REGION ++ "-aiplatform.googleapis.com/v1/projects/" ++ PROJECT_ID
  ++ "/locations/" ++ REGION ++ "/endpoints/" ++ endpoint_name endpoint
  ++ ":rawPredict".

Section Cells.

Variable model_id : cloud -> string.
Variable endpoint_id : cloud -> string.

(** The code cells, top to bottom. *)
Definition notebook : M bool :=
  _ <~ init PROJECT_ID REGION STAGING_BUCKET ;;
  let serving_container_args := ["tritonserver"] in
  model <~ Model_upload model_id MODEL_DISPLAY_NAME IMAGE_URI
                        serving_container_args MODEL_ARTIFACTS_REPOSITORY ;;
  endpoint <~ Endpoint_create endpoint_id ENDPOINT_DISPLAY_NAME ;;
  let traffic_percentage := 100 in
  let machine_type := "n1-standard-4" in
  let accelerator_type := "NVIDIA_TESLA_T4" in
  let accelerator_count := 1 in
  let min_replica_count := 1 in
  let max_replica_count := 2 in
  _ <~ deploy model endpoint MODEL_DISPLAY_NAME machine_type
              min_replica_count max_replica_count traffic_percentage
              accelerator_type accelerator_count ;;
  let uri := uri_of endpoint in
  raw_predict uri "simple.json".

End Cells.

Definition is_raw_predict (e : call) : bool :=
  match e with RawPredict _ _ => true | _ => false end.

End Notebook2.

(** A service that numbers its resources from 0, for the examples. *)
Module SampleService.

Definition name_text (n : nat) : string :=
  NilEmpty.string_of_uint (Nat.to_uint n).

Definition model_id (c : Vertex.cloud) : string :=
  name_text (List.length (Vertex.models c)).

Definition endpoint_id (c : Vertex.cloud) : string :=
  name_text (List.length (Vertex.endpoints c)).

Definition new_project : Vertex.cloud := Vertex.mkCloud "" "" [] [] [] [].

Definition notebook : Vertex.M bool := Notebook2.notebook model_id endpoint_id.

End SampleService.

(** ** Example frames *)

Module Examples.

Definition f32 (z : Z) : value := VFloat (float32_of_Z z).

(** Three trips as BigQuery might hand them over. *)
Definition trips : dataframe :=
  mkdf [0; 1; 2]
    [ mkcol "VendorID" "int64" [VInt 1; VInt 2; VInt 1];
      mkcol "tpep_pickup_datetime" "object" [VStr "1000"; VStr "2000"; VNull];
      mkcol "tpep_dropoff_datetime" "object" [VStr "1600"; VStr "2900"; VNull];
      mkcol " Passenger_Count" "int64" [VInt 1; VInt 2; VNull];
      mkcol "trip_distance" "float64" [f32 3; f32 7; f32 1];
      mkcol "pickup_longitude" "float64" [f32 (-74); f32 (-74); f32 (-74)];
      mkcol "pickup_latitude" "float64" [f32 41; f32 41; f32 41];
      mkcol "RatecodeID" "int64" [VInt 1; VInt 1; VInt 5000000000];
      mkcol "dropoff_longitude" "float64" [f32 (-74); f32 (-74); f32 (-74)];
      mkcol "dropoff_latitude" "float64" [f32 41; f32 41; f32 41];
      mkcol "fare_amount" "float64" [f32 12; f32 600; f32 9] ].

(** The same trips once cleaned. *)
Definition trips_cleaned : dataframe :=
  mkdf [0; 1; 2]
    [ mkcol "pickup_datetime" "datetime64[ms]" [VTime 1000; VTime 2000; VNull];
      mkcol "dropoff_datetime" "datetime64[ms]" [VTime 1600; VTime 2900; VNull];
      mkcol "passenger_count" "int32" [VInt 1; VInt 2; VInt (-1)];
      mkcol "trip_distance" "float32" [f32 3; f32 7; f32 1];
      mkcol "pickup_longitude" "float32" [f32 (-74); f32 (-74); f32 (-74)];
      mkcol "pickup_latitude" "float32" [f32 41; f32 41; f32 41];
      mkcol "rate_code" "int32" [VInt 1; VInt 1; VInt 705032704];
      mkcol "dropoff_longitude" "float32" [f32 (-74); f32 (-74); f32 (-74)];
      mkcol "dropoff_latitude" "float32" [f32 41; f32 41; f32 41];
      mkcol "fare_amount" "float32" [f32 12; f32 600; f32 9] ].

(** What is left of them for training: the third trip has no passenger
    count, the second an outlying fare. *)
Definition trips_training : dataframe :=
  mkdf [0]
    [ mkcol "passenger_count" "int32" [VInt 1];
      mkcol "trip_distance" "float32" [f32 3];
      mkcol "pickup_longitude" "float32" [f32 (-74)];
      mkcol "pickup_latitude" "float32" [f32 41];
      mkcol "rate_code" "int32" [VInt 1];
      mkcol "dropoff_longitude" "float32" [f32 (-74)];
      mkcol "dropoff_latitude" "float32" [f32 41];
      mkcol "fare_amount" "float32" [f32 12] ].

(** A passenger count that arrives as float64. *)
Definition float_passengers : dataframe :=
  mkdf [0] [ mkcol "passenger_count" "float64" [f32 2] ].

(** A fare that arrives as strings, one of them missing. *)
Definition text_fares : dataframe :=
  mkdf [0; 1] [ mkcol "fare_amount" "object" [VStr "12"; VNull] ].

(** The float64 passenger count once cleaned. *)
Definition float_passengers_cleaned : dataframe :=
  mkdf [0] [ mkcol "passenger_count" "float32" [f32 2] ].

(** A table that has the columns but no rows yet. *)
Definition no_trips : dataframe :=
  mkdf []
    [ mkcol "VendorID" "int64" [];
      mkcol "tpep_pickup_datetime" "object" [];
      mkcol "Passenger_Count" "int64" [];
      mkcol "Fare_Amount" "object" [] ].

(** A fare that is not a number. *)
Definition bad_fares : dataframe :=
  mkdf [0; 1] [ mkcol "fare_amount" "object" [VStr "12"; VStr "n/a"] ].



(** A rate code delivered twice, under its old and its new name. *)
Definition two_rate_codes : dataframe :=
  mkdf [0]
    [ mkcol "RatecodeID" "int64" [VInt 1];
      mkcol "rate_code" "int64" [VInt 1] ].

(** Five feature rows and their five labels. *)
Definition X5 : dataframe :=
  mkdf [0; 1; 2; 3; 4]
    [ mkcol "trip_distance" "float32" [f32 1; f32 2; f32 3; f32 4; f32 5] ].

Definition y5 : column :=
  mkcol "fare_amount" "float32" [f32 5; f32 8; f32 11; f32 14; f32 17].

End Examples.

(** * Facts about the library operations *)

Lemma bind_Some {A B : Type} (m : option A) (k : A -> option B) (b : B) :
  bind m k = Some b <-> exists a, m = Some a /\ k a = Some b.
Proof.
  destruct m as [a|]; simpl; split.
  - intros H. exists a. auto.
  - intros [a' [E H]]. inversion E; subst. exact H.
  - discriminate.
  - intros [a' [E _]]. discriminate.
Qed.

Lemma mapM_Some_length {A B : Type} (f : A -> option B) (l : list A) (l' : list B) :
  mapM f l = Some l' -> List.length l' = List.length l.
Proof.
  revert l'. induction l as [|a l IH]; simpl; intros l' H.
  - inversion H. reflexivity.
  - destruct (f a) as [b|]; simpl in H; [|discriminate].
    destruct (mapM f l) as [bs|]; simpl in H; [|discriminate].
    inversion H; subst. simpl. f_equal. apply IH. reflexivity.
Qed.

Lemma mapM_Some_nth {A B : Type} (f : A -> option B) (l : list A) (l' : list B) :
  mapM f l = Some l' ->
  forall i a, nth_error l i = Some a ->
              exists b, nth_error l' i = Some b /\ f a = Some b.
Proof.
  revert l'. induction l as [|x l IH]; simpl; intros l' H i a Hi.
  - destruct i; discriminate.
  - destruct (f x) as [b|] eqn:Fx; simpl in H; [|discriminate].
    destruct (mapM f l) as [bs|]; simpl in H; [|discriminate].
    inversion H; subst. destruct i as [|i]; simpl in *.
    + inversion Hi; subst. exists b. auto.
    + eapply IH; eauto.
Qed.

Lemma mapM_total {A B : Type} (f : A -> option B) (l : list A) :
  (forall a, In a l -> f a <> None) -> exists l', mapM f l = Some l'.
Proof.
  induction l as [|x l IH]; simpl; intros H.
  - eexists. reflexivity.
  - destruct (f x) as [b|] eqn:Fx.
    + destruct IH as [bs E]. { intros a Ha. apply H. auto. }
      rewrite E. simpl. eexists. reflexivity.
    + exfalso. apply (H x); auto.
Qed.

Lemma set_name_same (c : column) : set_name (col_name c) c = c.
Proof. destruct c. reflexivity. Qed.

Module FrameFacts.
Import Frame.

Lemma named_true (col : string) (c : column) :
  named col c = true <-> col_name c = col.
Proof. unfold named. apply String.eqb_eq. Qed.

Lemma named_false (col : string) (c : column) :
  named col c = false <-> col_name c <> col.
Proof. unfold named. apply String.eqb_neq. Qed.

Lemma filter_named_absent (l : list column) (n : string) :
  ~ In n (map col_name l) -> filter (named n) l = [].
Proof.
  induction l as [|c l IH]; simpl; intros H; [reflexivity|].
  destruct (named n c) eqn:E.
  - apply named_true in E. exfalso. apply H. auto.
  - apply IH. intros Hin. apply H. auto.
Qed.

Lemma filter_named_absent_inv (l : list column) (n : string) :
  filter (named n) l = [] -> ~ In n (map col_name l).
Proof.
  induction l as [|c l IH]; simpl; intros H; [tauto|].
  destruct (named n c) eqn:E; [discriminate|].
  apply named_false in E. intros [Hc|Hin]; [contradiction|].
  apply IH; assumption.
Qed.

Lemma filter_named_at (pre post : list column) (c : column) :
  ~ In (col_name c) (map col_name pre) ->
  ~ In (col_name c) (map col_name post) ->
  filter (named (col_name c)) (pre ++ c :: post) = [c].
Proof.
  intros Hpre Hpost. rewrite filter_app. simpl.
  rewrite (filter_named_absent pre), (filter_named_absent post) by assumption.
  unfold named at 1. rewrite String.eqb_refl. reflexivity.
Qed.

Lemma filter_others_absent (l : list column) (n : string) :
  ~ In n (map col_name l) -> filter (fun c => negb (named n c)) l = l.
Proof.
  induction l as [|c l IH]; simpl; intros H; [reflexivity|].
  destruct (named n c) eqn:E; simpl.
  - apply named_true in E. exfalso. apply H. auto.
  - f_equal. apply IH. intros Hin. apply H. auto.
Qed.

Lemma replace_absent (l : list column) (n : string) (s : column) :
  ~ In n (map col_name l) ->
  map (fun c => if named n c then set_name n s else c) l = l.
Proof.
  induction l as [|c l IH]; simpl; intros H; [reflexivity|].
  destruct (named n c) eqn:E.
  - apply named_true in E. exfalso. apply H. auto.
  - f_equal. apply IH. intros Hin. apply H. auto.
Qed.

Section At.
Variables (idx : list Z) (pre post : list column) (c : column).
Hypothesis Hpre : ~ In (col_name c) (map col_name pre).
Hypothesis Hpost : ~ In (col_name c) (map col_name post).

Lemma getitem_at :
  getitem (mkdf idx (pre ++ c :: post)) (col_name c) = Some c.
Proof. unfold getitem. simpl. rewrite filter_named_at by assumption. reflexivity. Qed.

Lemma drop_at :
  drop (mkdf idx (pre ++ c :: post)) (col_name c) = Some (mkdf idx (pre ++ post)).
Proof.
  unfold drop. simpl.
  rewrite existsb_app. simpl. unfold named at 2. rewrite String.eqb_refl.
  rewrite orb_true_r. simpl.
  rewrite filter_app. simpl. unfold named at 2. rewrite String.eqb_refl. simpl.
  rewrite !filter_others_absent by assumption. reflexivity.
Qed.

Lemma setitem_at (s : column) :
  col_name s = col_name c ->
  setitem (mkdf idx (pre ++ c :: post)) (col_name c) s
  = mkdf idx (pre ++ s :: post).
Proof.
  intros Hs. unfold setitem. simpl. rewrite map_app. simpl.
  unfold named at 2. rewrite String.eqb_refl.
  rewrite !replace_absent by assumption.
  rewrite <- Hs, set_name_same. reflexivity.
Qed.
End At.

End FrameFacts.

Section CleanSpec.

Variable read_float : string -> option spec_float.
Variable read_datetime : string -> option Z.
Variable mh : Dict.t string.

Local Notation "'astype_'" := (astype read_float read_datetime).
Local Notation "'clean_body_'" := (clean_body read_float read_datetime).
Local Notation "'clean_'" := (clean read_float read_datetime).
Local Notation "'downcast_'" := (downcast read_float read_datetime).
Local Notation "'clean_col_'" := (clean_col read_float read_datetime mh).

Lemma astype_name (c s : column) (dtype : string) :
  astype_ c dtype = Some s -> col_name s = col_name c.
Proof.
  unfold astype. intros H.
  apply bind_Some in H. destruct H as [f [_ H]].
  apply bind_Some in H. destruct H as [vs [_ H]].
  inversion H. reflexivity.
Qed.

Lemma astype_dtype (c s : column) (dtype : string) :
  astype_ c dtype = Some s -> col_dtype s = dtype.
Proof.
  unfold astype. intros H.
  apply bind_Some in H. destruct H as [f [_ H]].
  apply bind_Some in H. destruct H as [vs [_ H]].
  inversion H. reflexivity.
Qed.

Lemma downcast_name (c s : column) :
  downcast_ c = Some s -> col_name s = col_name c.
Proof.
  unfold downcast. intros H.
  apply bind_Some in H. destruct H as [s1 [H1 H]].
  apply bind_Some in H. destruct H as [s2 [H2 H]].
  inversion H; subst. simpl.
  assert (E1 : col_name s1 = col_name c).
  { destruct (Str.contains "int" (col_dtype c)).
    - eapply astype_name; eauto.
    - inversion H1; reflexivity. }
  rewrite <- E1.
  destruct (Str.contains "float" (col_dtype s1)).
  - eapply astype_name; eauto.
  - inversion H2; reflexivity.
Qed.

Lemma clean_col_names (c : column) (cs : list column) :
  clean_col_ c = Some cs ->
  forall s, In s cs -> col_name s = col_name c /\ branch_of mh c <> Dropped.
Proof.
  unfold clean_col. intros H s Hs.
  destruct (branch_of mh c) eqn:Br.
  - inversion H; subst. destruct Hs.
  - apply bind_Some in H. destruct H as [s' [H1 H]]. inversion H; subst.
    destruct Hs as [<-|[]]. split; [eapply astype_name; eauto | discriminate].
  - apply bind_Some in H. destruct H as [s' [H1 H]]. inversion H; subst.
    destruct Hs as [<-|[]]. split; [eapply astype_name; eauto | discriminate].
  - apply bind_Some in H. destruct H as [s' [H1 H]]. inversion H; subst.
    destruct Hs as [<-|[]]. split; [eapply downcast_name; eauto | discriminate].
Qed.

(** The float32 step and the null-fill that ends the last branch. *)
Lemma float_step (idx : list Z) (pre post : list column) (c : column) :
  ~ In (col_name c) (map col_name pre) ->
  ~ In (col_name c) (map col_name post) ->
  (df2 <- (if Str.contains "float" (col_dtype c)
           then s' <- astype_ c "float32" ;;
                Some (Frame.setitem (mkdf idx (pre ++ c :: post)) (col_name c) s')
           else Some (mkdf idx (pre ++ c :: post))) ;;
   s2 <- Frame.getitem df2 (col_name c) ;;
   Some (Frame.setitem df2 (col_name c) (Frame.fillna_minus_one s2)))
  = (cs <- (s <- (s2 <- (if Str.contains "float" (col_dtype c)
                         then astype_ c "float32" else Some c) ;;
                  Some (Frame.fillna_minus_one s2)) ;;
            Some [s]) ;;
     Some (mkdf idx (pre ++ cs ++ post))).
Proof.
  intros Hpre Hpost.
  destruct (Str.contains "float" (col_dtype c)).
  - destruct (astype_ c "float32") as [s2|] eqn:Ha2; cbn [bind]; [|reflexivity].
    assert (E2 : col_name s2 = col_name c) by (eapply astype_name; eauto).
    rewrite FrameFacts.setitem_at by auto.
    rewrite <- E2 in Hpre, Hpost |- *.
    rewrite FrameFacts.getitem_at by assumption. cbn [bind].
    rewrite FrameFacts.setitem_at by auto. reflexivity.
  - cbn [bind]. rewrite FrameFacts.getitem_at by assumption. cbn [bind].
    rewrite FrameFacts.setitem_at by auto. reflexivity.
Qed.

(** One iteration, on a frame in which the label of [c] is not repeated. *)
Lemma clean_body_at (idx : list Z) (pre post : list column) (c : column) :
  ~ In (col_name c) (map col_name pre) ->
  ~ In (col_name c) (map col_name post) ->
  clean_body_ mh (mkdf idx (pre ++ c :: post)) (col_name c)
  = (cs <- clean_col_ c ;; Some (mkdf idx (pre ++ cs ++ post))).
Proof.
  intros Hpre Hpost.
  unfold clean_body, clean_col, branch_of.
  destruct (negb (Dict.mem (col_name c) mh)) eqn:Hm.
  { cbn [bind]. apply FrameFacts.drop_at; assumption. }
  rewrite FrameFacts.getitem_at by assumption. cbn [bind].
  destruct (String.eqb (col_dtype c) "object") eqn:Hobj; cbn [andb].
  { destruct (Str.mem (col_name c) ["pickup_datetime"; "dropoff_datetime"]).
    - destruct (astype_ c "datetime64[ms]") as [s|] eqn:Ha; cbn [bind]; [|reflexivity].
      rewrite FrameFacts.setitem_at; auto. eapply astype_name; eauto.
    - destruct (astype_ c "float32") as [s|] eqn:Ha; cbn [bind]; [|reflexivity].
      rewrite FrameFacts.setitem_at; auto. eapply astype_name; eauto. }
  unfold downcast.
  (* the int32 step *)
  destruct (Str.contains "int" (col_dtype c)) eqn:Hint.
  - destruct (astype_ c "int32") as [s1|] eqn:Ha1; cbn [bind]; [|reflexivity].
    assert (E1 : col_name s1 = col_name c) by (eapply astype_name; eauto).
    rewrite FrameFacts.setitem_at by auto.
    rewrite <- E1 in Hpre, Hpost |- *.
    rewrite FrameFacts.getitem_at by assumption. cbn [bind].
    apply float_step; assumption.
  - cbn [bind]. rewrite FrameFacts.getitem_at by assumption. cbn [bind].
    apply float_step; assumption.
Qed.

(** The loop, on a frame whose labels are pairwise distinct. *)
Lemma for_each_distinct (idx : list Z) (todo done : list column) :
  NoDup (map col_name todo) ->
  (forall c, In c todo -> ~ In (col_name c) (map col_name done)) ->
  for_each (clean_body_ mh) (map col_name todo) (mkdf idx (done ++ todo))
  = (css <- mapM clean_col_ todo ;; Some (mkdf idx (done ++ List.concat css))).
Proof.
  revert done. induction todo as [|c todo IH]; intros done Hnd Hdone.
  - simpl. rewrite app_nil_r. reflexivity.
  - simpl map in Hnd. inversion Hnd as [|? ? Hc Hnd']; subst.
    cbn [map for_each mapM].
    rewrite clean_body_at; auto; [|apply Hdone; left; reflexivity].
    destruct (clean_col_ c) as [cs|] eqn:Hcs; cbn [bind]; [|reflexivity].
    replace (done ++ cs ++ todo)%list with ((done ++ cs) ++ todo)%list
      by (rewrite app_assoc; reflexivity).
    rewrite IH; auto.
    + destruct (mapM clean_col_ todo) as [css|]; cbn [bind]; [|reflexivity].
      simpl. rewrite app_assoc. reflexivity.
    + intros c' Hc' Hin. rewrite map_app in Hin. apply in_app_or in Hin.
      destruct Hin as [Hin|Hin].
      * apply (Hdone c'); [right; assumption | assumption].
      * apply in_map_iff in Hin. destruct Hin as [s [Es Hs]].
        destruct (clean_col_names c cs Hcs s Hs) as [En _].
        apply Hc. rewrite <- En, Es. apply in_map. assumption.
Qed.

(** *** A repeated label makes the loop raise *)

Lemma filter_setitem_other (st : dataframe) (col n : string) (s : column) :
  n <> col ->
  filter (Frame.named n) (df_columns (Frame.setitem st col s))
  = filter (Frame.named n) (df_columns st).
Proof.
  intros Hn. unfold Frame.setitem. simpl.
  induction (df_columns st) as [|c l IH]; [reflexivity|].
  simpl. destruct (Frame.named col c) eqn:E.
  - apply FrameFacts.named_true in E.
    assert (F1 : Frame.named n (set_name col s) = false)
      by (apply FrameFacts.named_false; simpl; congruence).
    assert (F2 : Frame.named n c = false)
      by (apply FrameFacts.named_false; congruence).
    rewrite F1, F2. exact IH.
  - destruct (Frame.named n c); rewrite IH; reflexivity.
Qed.

Lemma filter_drop_other (st st' : dataframe) (col n : string) :
  Frame.drop st col = Some st' -> n <> col ->
  filter (Frame.named n) (df_columns st') = filter (Frame.named n) (df_columns st).
Proof.
  unfold Frame.drop. intros H Hn.
  destruct (existsb _ _); [|discriminate]. inversion H; subst; clear H. simpl.
  induction (df_columns st) as [|c l IH]; [reflexivity|].
  simpl. destruct (Frame.named col c) eqn:E; simpl.
  - apply FrameFacts.named_true in E.
    assert (F2 : Frame.named n c = false)
      by (apply FrameFacts.named_false; congruence).
    rewrite F2. exact IH.
  - destruct (Frame.named n c); rewrite IH; reflexivity.
Qed.

Lemma filter_drop_same (st st' : dataframe) (col : string) :
  Frame.drop st col = Some st' ->
  filter (Frame.named col) (df_columns st') = [].
Proof.
  unfold Frame.drop. intros H.
  destruct (existsb _ _); [|discriminate]. inversion H; subst; clear H. simpl.
  induction (df_columns st) as [|c l IH]; [reflexivity|].
  simpl. destruct (Frame.named col c) eqn:E; simpl; [exact IH|].
  rewrite E. exact IH.
Qed.

Ltac open_binds :=
  repeat match goal with
         | H : bind _ _ = Some _ |- _ =>
             apply bind_Some in H; destruct H as [? [? H]]
         | H : Some _ = Some _ |- _ => inversion H; subst; clear H
         | H : (if ?b then _ else _) = Some _ |- _ => destruct b
         end.

Lemma clean_body_other (st st' : dataframe) (col n : string) :
  clean_body_ mh st col = Some st' -> n <> col ->
  filter (Frame.named n) (df_columns st') = filter (Frame.named n) (df_columns st).
Proof.
  unfold clean_body. intros H Hn.
  destruct (negb (Dict.mem col mh)).
  { eapply filter_drop_other; eauto. }
  open_binds; rewrite ?filter_setitem_other by assumption; reflexivity.
Qed.

Lemma clean_body_kept (st st' : dataframe) (col : string) :
  clean_body_ mh st col = Some st' -> Dict.mem col mh = true ->
  exists c, filter (Frame.named col) (df_columns st) = [c].
Proof.
  unfold clean_body. intros H Hm. rewrite Hm in H. cbn [negb] in H.
  apply bind_Some in H. destruct H as [s [G _]].
  unfold Frame.getitem in G.
  destruct (filter (Frame.named col) (df_columns st)) as [|c [|c' l]];
    try discriminate.
  exists c. reflexivity.
Qed.

Lemma gone_label_raises (col : string) (rest : list string) (st st' : dataframe) :
  for_each (clean_body_ mh) rest st = Some st' ->
  In col rest -> Dict.mem col mh = false ->
  filter (Frame.named col) (df_columns st) = [] -> False.
Proof.
  revert st. induction rest as [|x rest IH]; intros st H Hin Hm Hgone.
  - destruct Hin.
  - cbn [for_each] in H. apply bind_Some in H. destruct H as [st1 [Hb H]].
    destruct (string_dec x col) as [->|Hx].
    + unfold clean_body in Hb. rewrite Hm in Hb. cbn [negb] in Hb.
      unfold Frame.drop in Hb.
      assert (E : existsb (Frame.named col) (df_columns st) = false).
      { destruct (existsb _ _) eqn:E; [|reflexivity].
        apply existsb_exists in E. destruct E as [c [Hc Hn]].
        assert (Hf : In c (filter (Frame.named col) (df_columns st)))
          by (apply filter_In; auto).
        rewrite Hgone in Hf. destruct Hf. }
      rewrite E in Hb. discriminate.
    + apply (IH st1 H).
      * destruct Hin as [Hin|Hin]; [contradiction|assumption].
      * assumption.
      * rewrite (clean_body_other st st1 x col Hb) by congruence. assumption.
Qed.

Lemma for_each_Some_NoDup (todo : list string) (st st' : dataframe) :
  for_each (clean_body_ mh) todo st = Some st' ->
  (forall n, In n todo ->
             (count_occ string_dec todo n
              <= List.length (filter (Frame.named n) (df_columns st)))%nat) ->
  NoDup todo.
Proof.
  revert st. induction todo as [|col rest IH]; intros st H Hcount.
  - constructor.
  - cbn [for_each] in H. apply bind_Some in H. destruct H as [st1 [Hb H]].
    assert (Hnot : ~ In col rest).
    { destruct (Dict.mem col mh) eqn:Hm.
      - destruct (clean_body_kept st st1 col Hb Hm) as [c Hc].
        specialize (Hcount col (or_introl eq_refl)).
        rewrite Hc in Hcount. rewrite count_occ_cons_eq in Hcount by reflexivity.
        simpl in Hcount.
        apply (count_occ_not_In string_dec). lia.
      - intros Hin. apply (gone_label_raises col rest st1 st' H Hin Hm).
        unfold clean_body in Hb. rewrite Hm in Hb. cbn [negb] in Hb.
        eapply filter_drop_same; eauto. }
    constructor; [assumption|].
    apply (IH st1 H). intros n Hn.
    assert (Hne : n <> col) by (intros ->; contradiction).
    rewrite (clean_body_other st st1 col n Hb Hne).
    specialize (Hcount n (or_intror Hn)).
    rewrite count_occ_cons_neq in Hcount by congruence. assumption.
Qed.

Lemma count_labels (cols : list column) (n : string) :
  count_occ string_dec (map col_name cols) n
  = List.length (filter (Frame.named n) cols).
Proof.
  induction cols as [|c cols IH]; [reflexivity|].
  simpl. unfold Frame.named at 1.
  destruct (string_dec (col_name c) n) as [E|E].
  - rewrite E, String.eqb_refl. simpl. f_equal. exact IH.
  - apply String.eqb_neq in E. rewrite E. exact IH.
Qed.

(** *** The two renames *)

Lemma get_tmp (f : string -> string) (l : list string) (n : string) :
  In n l -> Dict.get (map (fun col => (col, f col)) l) n = Some (f n).
Proof.
  induction l as [|x l IH]; intros Hin; [destruct Hin|].
  simpl. destruct (String.eqb n x) eqn:E.
  - apply String.eqb_eq in E. subst. reflexivity.
  - apply String.eqb_neq in E. destruct Hin as [Hx|Hin]; [congruence|auto].
Qed.

Lemma rename_twice (df : dataframe) (remap : Dict.t string) :
  Frame.rename remap (Frame.rename (tmp_of df) df)
  = mkdf (df_index df) (renamed remap df).
Proof.
  unfold Frame.rename, renamed. simpl. f_equal.
  rewrite map_map. apply map_ext_in. intros c Hc.
  unfold tmp_of. rewrite get_tmp by (apply in_map; assumption).
  unfold final_name. simpl.
  destruct (Dict.get remap _); [reflexivity|].
  destruct c; reflexivity.
Qed.

(** [clean] returns exactly when the final labels are pairwise distinct and
    every cast succeeds, and then it returns the columns of [clean_col_], in
    the order of the input columns, over the unchanged index. *)
Theorem clean_spec (df : dataframe) (remap : Dict.t string) (df' : dataframe) :
  clean_ df remap mh = Some df' <->
  NoDup (map col_name (renamed remap df)) /\
  exists css, mapM clean_col_ (renamed remap df) = Some css /\
              df' = mkdf (df_index df) (List.concat css).
Proof.
  unfold clean. rewrite rename_twice. unfold Frame.columns. cbn [df_columns].
  split.
  - intros H.
    assert (Hnd : NoDup (map col_name (renamed remap df))).
    { eapply for_each_Some_NoDup; [exact H|].
      intros n _. cbn [df_columns]. rewrite count_labels. apply le_n. }
    split; [assumption|].
    pose proof (for_each_distinct (df_index df) (renamed remap df) [] Hnd) as L.
    simpl in L. rewrite L in H by (intros; tauto).
    apply bind_Some in H. destruct H as [css [E H]].
    exists css. split; [assumption|]. inversion H. reflexivity.
  - intros [Hnd [css [E ->]]].
    pose proof (for_each_distinct (df_index df) (renamed remap df) [] Hnd) as L.
    simpl in L. rewrite L by (intros; tauto).
    rewrite E. reflexivity.
Qed.

End CleanSpec.

(** * The filter step *)

Module QueryFacts.
Import Query.

Lemma and_masks_nth (m1 m2 : list bool) (i : nat) :
  nth i (and_masks m1 m2) false = nth i m1 false && nth i m2 false.
Proof.
  revert m2 i. induction m1 as [|b1 m1 IH]; intros m2 i.
  - simpl. destruct i; reflexivity.
  - destruct m2 as [|b2 m2].
    + simpl. destruct i; rewrite andb_false_r; reflexivity.
    + destruct i as [|i]; simpl; [reflexivity | apply IH].
Qed.

Lemma mapM_nth_true (f : value -> option bool) (l : list value) (m : list bool) :
  mapM f l = Some m ->
  forall i, nth i m false = true <->
            exists v, nth_error l i = Some v /\ f v = Some true.
Proof.
  revert m. induction l as [|x l IH]; intros m H i.
  - inversion H; subst. split.
    + destruct i; discriminate.
    + intros [v [Hv _]]. destruct i; discriminate.
  - simpl in H. apply bind_Some in H. destruct H as [b [Fx H]].
    apply bind_Some in H. destruct H as [bs [Hl H]]. inversion H; subst; clear H.
    destruct i as [|i]; simpl.
    + split.
      * intros ->. exists x. auto.
      * intros [v [Hv Hf]]. inversion Hv; subst. congruence.
    + apply IH. assumption.
Qed.

Lemma eval_holds (df : dataframe) (e : expr) :
  forall mask, eval df e = Some mask ->
               forall i, nth i mask false = true <-> holds df i e.
Proof.
  induction e as [col k|col k|a IHa b IHb]; intros mask H i; simpl in *.
  - apply bind_Some in H. destruct H as [s [G H]].
    unfold cell. rewrite G. simpl. apply mapM_nth_true. assumption.
  - apply bind_Some in H. destruct H as [s [G H]].
    unfold cell. rewrite G. simpl. apply mapM_nth_true. assumption.
  - apply bind_Some in H. destruct H as [m1 [H1 H]].
    apply bind_Some in H. destruct H as [m2 [H2 H]]. inversion H; subst; clear H.
    rewrite and_masks_nth, andb_true_iff, (IHa m1 H1 i), (IHb m2 H2 i). tauto.
Qed.

(** The integer comparison of [float_cmp] is the comparison of the
    float's value with the literal. *)
Lemma float_cmp_value (f : spec_float) (q : Q) (k : Z) :
  float_value f = Some q -> float_cmp f k = Some (Qcompare q (inject_Z k)).
Proof.
  destruct f as [s|s| |s m e]; cbn [float_value float_cmp]; try discriminate.
  - intros E. inversion E; subst q. unfold Qcompare. cbn [Qnum Qden inject_Z].
    rewrite !Z.mul_1_r. reflexivity.
  - intros E. inversion E; subst q; clear E. f_equal.
    destruct e as [|p|p]; unfold Qcompare; cbn [Qnum Qden inject_Z].
    + replace (0 <=? 0) with true by reflexivity.
      rewrite Z.pow_0_r, !Z.mul_1_r. reflexivity.
    + replace (0 <=? Z.pos p) with true by reflexivity.
      rewrite Pos2Z.inj_pow, !Z.mul_1_r. reflexivity.
    + replace (0 <=? Z.neg p) with false by reflexivity.
      change (- Z.neg p) with (Z.pos p).
      rewrite Pos2Z.inj_pow, Z.mul_1_r. reflexivity.
Qed.

Lemma float_between (f : spec_float) (lo hi : Z) :
  match float_cmp f lo with Some Datatypes.Gt => true | _ => false end = true /\
  match float_cmp f hi with Some Datatypes.Lt => true | _ => false end = true
  <-> exists q, float_value f = Some q /\
                Qlt (inject_Z lo) q /\ Qlt q (inject_Z hi).
Proof.
  destruct (float_value f) as [q|] eqn:V.
  - rewrite (float_cmp_value f q lo V), (float_cmp_value f q hi V).
    split.
    + intros [H1 H2]. exists q. split; [reflexivity|]. split.
      * apply Qgt_alt. destruct (Qcompare q (inject_Z lo)); congruence.
      * apply Qlt_alt. destruct (Qcompare q (inject_Z hi)); congruence.
    + intros [q' [E [H1 H2]]]. inversion E; subst q'.
      pose proof (proj1 (Qgt_alt q (inject_Z lo)) H1) as C1.
      pose proof (proj1 (Qlt_alt q (inject_Z hi)) H2) as C2.
      rewrite C1, C2. auto.
  - split.
    + intros [H1 H2]. destruct f as [s|s| |s m e]; simpl in *; try discriminate.
      destruct s; discriminate.
    + intros [q [E _]]. discriminate.
Qed.

Lemma between_iff (lo hi : Z) (o : option value) :
  (exists v, o = Some v /\ gt lo v = Some true) /\
  (exists v, o = Some v /\ lt hi v = Some true)
  <-> strictly_between lo hi o.
Proof.
  split.
  - intros [[v [-> Hg]] [v' [E Hl]]]. inversion E; subst v'; clear E.
    destruct v as [|z|f|s|t]; try discriminate.
    + simpl in *. injection Hg as Hg'. injection Hl as Hl'. lia.
    + cbn [gt lt] in Hg, Hl. injection Hg as Hg'. injection Hl as Hl'.
      cbn [strictly_between]. apply float_between. split; assumption.
  - destruct o as [[|z|f|s|t]|]; cbn [strictly_between]; try tauto.
    + intros [H1 H2].
      split; exists (VInt z); split; try reflexivity; simpl; f_equal; lia.
    + intros H. apply float_between in H. destruct H as [H1 H2].
      split; exists (VFloat f); split; try reflexivity; cbn [gt lt]; congruence.
Qed.

(** The comparison is by value, whatever the float's width: the 64-bit
    41.0 is above 40, and 1e10 is neither below 500 nor in (0, 500). *)
Example compare_by_value :
  Query.gt 40 (VFloat (S754_finite false 5770237022568448 (-47))) = Some true /\
  Query.lt 500 (VFloat (S754_finite false 9765625 10)) = Some false /\
  ~ strictly_between 0 500 (Some (VFloat (S754_finite false 9765625 10))) /\
  strictly_between 40 42 (Some (VFloat (S754_finite false 5770237022568448 (-47)))).
Proof.
  split; [reflexivity|]. split; [reflexivity|]. split.
  - intros [q [E [_ H]]]. vm_compute in E. injection E as <-.
    vm_compute in H. discriminate.
  - eexists. split; [reflexivity|]. split; reflexivity.
Qed.

Lemma keep_seq (mask : list bool) (a j : nat) :
  In j (keep mask (seq a (List.length mask))) <->
  (a <= j)%nat /\ nth (j - a) mask false = true.
Proof.
  revert a. induction mask as [|b mask IH]; intros a; simpl.
  - split; [tauto|]. intros [_ H]. destruct (j - a)%nat; discriminate.
  - assert (Hrec : In j (keep mask (seq (S a) (List.length mask))) <->
                   (S a <= j)%nat /\ nth (j - S a) mask false = true)
      by apply IH.
    destruct (Nat.lt_trichotomy j a) as [Hlt|[->|Hgt]].
    + split.
      * intros H. assert (Hin : In j (keep mask (seq (S a) (List.length mask)))).
        { destruct b; [destruct H as [H|H]; [lia|exact H] | exact H]. }
        apply Hrec in Hin. lia.
      * intros [H _]. lia.
    + rewrite Nat.sub_diag. destruct b.
      * split; [intros _; split; [lia|reflexivity] | intros _; left; reflexivity].
      * rewrite Hrec. split; [intros [H _]; lia | intros [_ H]; discriminate].
    + replace (j - a)%nat with (S (j - S a)) by lia.
      destruct b.
      * split.
        -- intros [H|H]; [lia|]. apply Hrec in H. split; [lia|tauto].
        -- intros [_ H]. right. apply Hrec. split; [lia|assumption].
      * rewrite Hrec. split; intros [H1 H2]; split; try assumption; lia.
Qed.

Lemma kept_rows_iff (mask : list bool) (i : nat) :
  In i (kept_rows mask) <-> nth i mask false = true.
Proof.
  unfold kept_rows. rewrite keep_seq. rewrite Nat.sub_0_r.
  split; [tauto|]. intros H. split; [lia|assumption].
Qed.

Lemma keep_map {A B : Type} (f : A -> B) (mask : list bool) (l : list A) :
  keep mask (map f l) = map f (keep mask l).
Proof.
  revert l. induction mask as [|b mask IH]; intros [|a l]; simpl; try reflexivity.
  destruct b; simpl; rewrite IH; reflexivity.
Qed.

Lemma kept_rows_cons (b : bool) (mask : list bool) :
  kept_rows (b :: mask)
  = ((if b then [0%nat] else []) ++ map S (kept_rows mask))%list.
Proof.
  unfold kept_rows. simpl. rewrite <- seq_shift, keep_map.
  destruct b; reflexivity.
Qed.

(** The [j]-th entry a mask keeps is the entry at the [j]-th kept position. *)
Lemma keep_nth_error {A : Type} (mask : list bool) (l : list A) (j : nat) :
  nth_error (keep mask l) j
  = match nth_error (kept_rows mask) j with
    | Some i => nth_error l i
    | None => None
    end.
Proof.
  revert l j. induction mask as [|b mask IH]; intros l j.
  - simpl. destruct j; reflexivity.
  - rewrite kept_rows_cons. destruct l as [|a l].
    + replace (nth_error (keep (b :: mask) (@nil A)) j) with (@None A)
        by (destruct j; reflexivity).
      destruct (nth_error ((if b then [0%nat] else []) ++ map S (kept_rows mask)) j)
        as [i|]; [destruct i|]; reflexivity.
    + destruct b; simpl.
      * destruct j as [|j]; [reflexivity|]. simpl.
        rewrite IH, nth_error_map.
        destruct (nth_error (kept_rows mask) j); reflexivity.
      * rewrite IH, nth_error_map.
        destruct (nth_error (kept_rows mask) j); reflexivity.
Qed.

Lemma getitem_apply_mask (mask : list bool) (df : dataframe) (col : string) :
  Frame.getitem (apply_mask mask df) col
  = match Frame.getitem df col with
    | Some c => Some (mkcol (col_name c) (col_dtype c) (keep mask (col_values c)))
    | None => None
    end.
Proof.
  unfold Frame.getitem, apply_mask. cbn [df_columns].
  set (g := fun c => mkcol (col_name c) (col_dtype c) (keep mask (col_values c))).
  assert (E : forall l, filter (Frame.named col) (map g l)
                        = map g (filter (Frame.named col) l)).
  { induction l as [|c l IH]; [reflexivity|]. simpl.
    change (Frame.named col (g c)) with (Frame.named col c).
    destruct (Frame.named col c); simpl; rewrite IH; reflexivity. }
  rewrite E. destruct (filter (Frame.named col) (df_columns df)) as [|c [|c' l]];
    reflexivity.
Qed.

(** Row [j] of a filtered frame is the row at the [j]-th kept position. *)
Lemma cell_apply_mask (mask : list bool) (df : dataframe) (col : string) (j : nat) :
  cell (apply_mask mask df) col j
  = match nth_error (kept_rows mask) j with
    | Some i => cell df col i
    | None => None
    end.
Proof.
  unfold cell. rewrite getitem_apply_mask.
  destruct (Frame.getitem df col) as [c|]; cbn [bind col_values].
  - apply keep_nth_error.
  - destruct (nth_error (kept_rows mask) j); reflexivity.
Qed.

Lemma filter_step_mask (df df' : dataframe) :
  filter_step df = Some df' ->
  exists q mask, join_and query_frags = Some q /\ eval df q = Some mask /\
                 df' = apply_mask mask df.
Proof.
  unfold filter_step, query. intros H.
  apply bind_Some in H. destruct H as [q [Hq H]].
  apply bind_Some in H. destruct H as [mask [Hm H]].
  inversion H. exists q, mask. auto.
Qed.

Lemma holds_query (df : dataframe) (i : nat) (q : expr) :
  join_and query_frags = Some q -> holds df i q <-> row_in_range df i.
Proof.
  intros Hq. inversion Hq; subst; clear Hq. unfold row_in_range. simpl.
  rewrite <- !between_iff. tauto.
Qed.

End QueryFacts.

(** C1. A row of the cleaned frame survives the filter step exactly when its
    fare is strictly between 0 and 500, its passenger count strictly between
    0 and 6, both longitudes strictly between -75 and -73 and both latitudes
    strictly between 40 and 42. The result consists of the surviving rows, in
    their order: its row [j] is the input row at the [j]-th surviving
    position, and every other row is dropped. *)
Theorem C1_filter_keeps_rows_in_range (df df' : dataframe) :
  filter_step df = Some df' ->
  exists mask,
    df' = Query.apply_mask mask df /\
    (forall i, In i (Query.kept_rows mask) <-> row_in_range df i) /\
    df_index df' = Query.keep mask (df_index df) /\
    (forall col j, cell df' col j
                   = match nth_error (Query.kept_rows mask) j with
                     | Some i => cell df col i
                     | None => None
                     end).
Proof.
  intros H.
  destruct (QueryFacts.filter_step_mask df df' H) as [q [mask [Hq [Hm ->]]]].
  exists mask. split; [reflexivity|]. split; [|split].
  - intros i.
    rewrite QueryFacts.kept_rows_iff, (QueryFacts.eval_holds df q mask Hm i).
    apply QueryFacts.holds_query. assumption.
  - reflexivity.
  - intros col j. apply QueryFacts.cell_apply_mask.
Qed.

(** C1 on the three cleaned example trips: only the first is in range. *)
Lemma C1_witness :
  filter_step Examples.trips_cleaned
  = Some (Query.apply_mask [true; false; false] Examples.trips_cleaned) /\
  (exists mask,
      Query.apply_mask [true; false; false] Examples.trips_cleaned
      = Query.apply_mask mask Examples.trips_cleaned /\
      (forall i, In i (Query.kept_rows mask)
                 <-> row_in_range Examples.trips_cleaned i) /\
      df_index (Query.apply_mask [true; false; false] Examples.trips_cleaned)
      = Query.keep mask (df_index Examples.trips_cleaned) /\
      (forall col j,
          cell (Query.apply_mask [true; false; false] Examples.trips_cleaned) col j
          = match nth_error (Query.kept_rows mask) j with
            | Some i => cell Examples.trips_cleaned col i
            | None => None
            end)).
Proof.
  assert (H : filter_step Examples.trips_cleaned
              = Some (Query.apply_mask [true; false; false] Examples.trips_cleaned))
    by (vm_compute; reflexivity).
  split; [exact H|].
  exact (C1_filter_keeps_rows_in_range Examples.trips_cleaned _ H).
Defined.

(** * Column-wise consequences of [clean_spec] *)

Lemma mapM_compose {A B C : Type} (f : A -> option B) (g : B -> option C)
      (l : list A) (l1 : list B) (l2 : list C) :
  mapM f l = Some l1 -> mapM g l1 = Some l2 ->
  mapM (fun a => b <- f a ;; g b) l = Some l2.
Proof.
  revert l1 l2. induction l as [|a l IH]; intros l1 l2 H1 H2; simpl in *.
  - inversion H1; subst. simpl in H2. exact H2.
  - apply bind_Some in H1. destruct H1 as [b [Fa H1]].
    apply bind_Some in H1. destruct H1 as [bs [Hl H1]]. inversion H1; subst; clear H1.
    simpl in H2. apply bind_Some in H2. destruct H2 as [c [Gb H2]].
    apply bind_Some in H2. destruct H2 as [cs [Hl2 H2]]. inversion H2; subst; clear H2.
    rewrite Fa. simpl. rewrite Gb. simpl. rewrite (IH bs cs Hl Hl2). reflexivity.
Qed.

Lemma mapM_pure {A B : Type} (g : A -> B) (l : list A) :
  mapM (fun a => Some (g a)) l = Some (map g l).
Proof.
  induction l as [|a l IH]; simpl; [reflexivity|]. rewrite IH. reflexivity.
Qed.

Lemma NoDup_map_eq {A B : Type} (f : A -> B) (l : list A) (a a' : A) :
  NoDup (map f l) -> In a l -> In a' l -> f a = f a' -> a = a'.
Proof.
  induction l as [|x l IH]; intros Hnd Ha Ha' E; [destruct Ha|].
  simpl in Hnd. inversion Hnd as [|? ? Hx Hnd']; subst.
  destruct Ha as [->|Ha], Ha' as [->|Ha'].
  - reflexivity.
  - exfalso. apply Hx. rewrite E. apply in_map. assumption.
  - exfalso. apply Hx. rewrite <- E. apply in_map. assumption.
  - apply IH; assumption.
Qed.

Lemma NoDup_filter {A : Type} (p : A -> bool) (l : list A) :
  NoDup l -> NoDup (filter p l).
Proof.
  induction 1 as [|x l Hx Hnd IH]; simpl; [constructor|].
  destruct (p x); [|assumption].
  constructor; [|assumption]. intros Hin. apply filter_In in Hin. tauto.
Qed.

Lemma dict_mem_keys {V : Type} (d : Dict.t V) (k : string) :
  Dict.mem k d = true -> In k (Dict.keys d).
Proof.
  unfold Dict.mem, Dict.keys. induction d as [|[k' v] d IH]; simpl; [discriminate|].
  destruct (String.eqb k k') eqn:E.
  - apply String.eqb_eq in E. auto.
  - intros H. right. apply IH. exact H.
Qed.

Lemma getitem_distinct (idx : list Z) (l : list column) (s : column) :
  NoDup (map col_name l) -> In s l ->
  Frame.getitem (mkdf idx l) (col_name s) = Some s.
Proof.
  intros Hnd Hin. apply in_split in Hin. destruct Hin as [pre [post ->]].
  rewrite map_app in Hnd. simpl in Hnd.
  apply FrameFacts.getitem_at.
  - intros H. apply NoDup_remove_2 in Hnd. apply Hnd. apply in_or_app. auto.
  - intros H. apply NoDup_remove_2 in Hnd. apply Hnd. apply in_or_app. auto.
Qed.

Lemma renamed_names (rm : Dict.t string) (df : dataframe) :
  map col_name (renamed rm df) = map (final_name rm) (Frame.columns df).
Proof.
  unfold renamed, Frame.columns. rewrite !map_map. reflexivity.
Qed.

Lemma in_renamed (rm : Dict.t string) (df : dataframe) (c' : column) :
  In c' (renamed rm df) <->
  exists c, In c (df_columns df) /\ c' = set_name (final_name rm (col_name c)) c.
Proof.
  unfold renamed. rewrite in_map_iff. split; intros [c [H1 H2]]; exists c; auto.
Qed.

Section CleanColumns.

Variable read_float : string -> option spec_float.
Variable read_datetime : string -> option Z.
Variable mh : Dict.t string.

Local Notation "'astype_'" := (astype read_float read_datetime).
Local Notation "'downcast_'" := (downcast read_float read_datetime).
Local Notation "'clean_col_'" := (clean_col read_float read_datetime mh).
Local Notation "'clean_'" := (clean read_float read_datetime).

Lemma branch_dropped (c : column) :
  branch_of mh c = Dropped <-> Dict.mem (col_name c) mh = false.
Proof.
  unfold branch_of. destruct (Dict.mem (col_name c) mh); cbn [negb].
  - split; [|discriminate].
    destruct (String.eqb (col_dtype c) "object");
      [destruct (Str.mem (col_name c) ["pickup_datetime"; "dropoff_datetime"])|];
      intros H; discriminate H.
  - tauto.
Qed.

(** A column is replaced by nothing when it is dropped and by exactly one
    column of the same name otherwise. *)
Lemma clean_col_shape (c : column) (cs : list column) :
  clean_col_ c = Some cs ->
  (Dict.mem (col_name c) mh = false /\ cs = []) \/
  (Dict.mem (col_name c) mh = true /\ exists s, cs = [s] /\ col_name s = col_name c).
Proof.
  intros H. destruct (Dict.mem (col_name c) mh) eqn:Hm.
  - right. split; [reflexivity|].
    assert (Hb : branch_of mh c <> Dropped)
      by (rewrite branch_dropped; congruence).
    unfold clean_col in H. destruct (branch_of mh c); [congruence| | |];
      apply bind_Some in H; destruct H as [s [Hs H]]; inversion H; subst;
      exists s; (split; [reflexivity|]).
    + eapply astype_name; eauto.
    + eapply astype_name; eauto.
    + eapply downcast_name; eauto.
  - left. split; [reflexivity|].
    apply branch_dropped in Hm. unfold clean_col in H. rewrite Hm in H.
    inversion H. reflexivity.
Qed.

Lemma cleaned_names (cols : list column) (css : list (list column)) :
  mapM clean_col_ cols = Some css ->
  map col_name (List.concat css)
  = filter (fun n => Dict.mem n mh) (map col_name cols).
Proof.
  revert css. induction cols as [|c cols IH]; intros css H; simpl in H.
  - inversion H. reflexivity.
  - apply bind_Some in H. destruct H as [cs [Hc H]].
    apply bind_Some in H. destruct H as [css' [Hcs H]]. inversion H; subst; clear H.
    simpl. rewrite map_app, (IH css' Hcs).
    destruct (clean_col_shape c cs Hc) as [[Hm ->]|[Hm [s [-> Hs]]]]; rewrite Hm.
    + reflexivity.
    + simpl. rewrite Hs. reflexivity.
Qed.

Lemma cleaned_columns (cols : list column) (css : list (list column)) :
  mapM clean_col_ cols = Some css ->
  forall s, In s (List.concat css) <->
            exists c, In c cols /\ clean_col_ c = Some [s].
Proof.
  revert css. induction cols as [|c cols IH]; intros css H s; simpl in H.
  - inversion H. simpl. split; [tauto|]. intros [c [[] _]].
  - apply bind_Some in H. destruct H as [cs [Hc H]].
    apply bind_Some in H. destruct H as [css' [Hcs H]]. inversion H; subst; clear H.
    simpl. rewrite in_app_iff, (IH css' Hcs s). split.
    + intros [Hin|[c' [Hin Hc']]].
      * exists c. split; [left; reflexivity|].
        destruct (clean_col_shape c cs Hc) as [[_ ->]|[_ [s' [-> _]]]].
        -- destruct Hin.
        -- destruct Hin as [->|[]]. assumption.
      * exists c'. auto.
    + intros [c' [[->|Hin] Hc']].
      * left. rewrite Hc in Hc'. inversion Hc'. left. reflexivity.
      * right. exists c'. auto.
Qed.

(** Every column of the result comes from exactly one input column, the one
    whose final name it carries. *)
Lemma clean_column_source (df df' : dataframe) (rm : Dict.t string) :
  clean_ df rm mh = Some df' ->
  NoDup (Frame.columns df') /\
  forall s, In s (df_columns df') <->
            exists c, In c (renamed rm df) /\ clean_col_ c = Some [s].
Proof.
  intros H. apply clean_spec in H. destruct H as [Hnd [css [Hcss ->]]].
  split.
  - unfold Frame.columns. cbn [df_columns].
    rewrite (cleaned_names _ _ Hcss). apply NoDup_filter. assumption.
  - intros s. cbn [df_columns]. apply cleaned_columns. assumption.
Qed.

Lemma clean_column_of (df df' : dataframe) (rm : Dict.t string) (c s : column) :
  clean_ df rm mh = Some df' ->
  In c (renamed rm df) -> In s (df_columns df') -> col_name s = col_name c ->
  clean_col_ c = Some [s].
Proof.
  intros H Hc Hs En.
  destruct (clean_column_source df df' rm H) as [_ Hsrc].
  apply Hsrc in Hs. destruct Hs as [c' [Hc' Hcol]].
  apply clean_spec in H. destruct H as [Hnd _].
  assert (E : c' = c).
  { apply (NoDup_map_eq col_name (renamed rm df)); auto.
    destruct (clean_col_shape c' [s] Hcol) as [[_ Habs]|[_ [s' [Es Hn]]]];
      [discriminate|].
    inversion Es; subst s'. congruence. }
  subst c'. assumption.
Qed.

End CleanColumns.

(** * What a retained column holds after [clean] *)

Section CleanCells.

Variable read_float : string -> option spec_float.
Variable read_datetime : string -> option Z.
Variable mh : Dict.t string.

Local Notation "'astype_'" := (astype read_float read_datetime).
Local Notation "'downcast_'" := (downcast read_float read_datetime).
Local Notation "'clean_col_'" := (clean_col read_float read_datetime mh).
Local Notation "'clean_'" := (clean read_float read_datetime).

Lemma caster_keeps_nulls (dtype : string) (f : value -> option value) :
  caster read_float read_datetime dtype = Some f -> keeps_nulls f.
Proof.
  unfold caster. intros H v v' Hf Hn.
  destruct (String.eqb dtype "float32");
    [|destruct (String.eqb dtype "int32");
      [|destruct (String.eqb dtype "datetime64[ms]"); [|discriminate]]];
    inversion H; subst f; clear H;
    destruct v as [|z|[s0|s0| |s0 m e]|s|t]; simpl in *; try discriminate;
    inversion Hf; reflexivity.
Qed.

Lemma astype_inv (c s : column) (dtype : string) :
  astype_ c dtype = Some s ->
  exists f, mapM f (col_values c) = Some (col_values s) /\ keeps_nulls f /\
            col_name s = col_name c /\ col_dtype s = dtype.
Proof.
  unfold astype. intros H.
  apply bind_Some in H. destruct H as [f [Hf H]].
  apply bind_Some in H. destruct H as [vs [Hvs H]]. inversion H; subst; clear H.
  exists f. simpl. repeat split; auto. eapply caster_keeps_nulls; eauto.
Qed.

(** One optional cast of the last branch. *)
Lemma cast_if_inv (b : bool) (c s : column) (dtype : string) :
  (if b then astype_ c dtype else Some c) = Some s ->
  exists f, mapM f (col_values c) = Some (col_values s) /\ keeps_nulls f /\
            col_dtype s = (if b then dtype else col_dtype c).
Proof.
  destruct b; intros H.
  - destruct (astype_inv c s dtype H) as [f [H1 [H2 [_ H3]]]]. exists f. auto.
  - inversion H; subst. exists (fun v => Some v). split; [|split].
    + rewrite (mapM_pure (fun v => v)), map_id. reflexivity.
    + intros v v' E. inversion E; subst. auto.
    + reflexivity.
Qed.

Lemma downcast_inv (c s : column) :
  downcast_ c = Some s ->
  exists f, mapM f (col_values c) = Some (col_values s) /\
            (forall v v', f v = Some v' -> is_null v' = false) /\
            (forall v v', f v = Some v' -> is_null v = true ->
                          v' = VInt (-1) \/ v' = VFloat (float32_of_Z (-1))).
Proof.
  unfold downcast. intros H.
  apply bind_Some in H. destruct H as [s1 [H1 H]].
  apply bind_Some in H. destruct H as [s2 [H2 H]]. inversion H; subst; clear H.
  destruct (cast_if_inv _ _ _ _ H1) as [f1 [M1 [K1 D1]]].
  destruct (cast_if_inv _ _ _ _ H2) as [f2 [M2 [K2 D2]]].
  set (fill := fun v => if is_null v then Frame.fill_value (col_dtype s2) else v).
  exists (fun v => v1 <- f1 v ;; v2 <- f2 v1 ;; Some (fill v2)).
  cbn [col_values col_dtype Frame.fillna_minus_one].
  assert (Hfill : forall v, is_null (fill v) = false).
  { intros v. unfold fill. destruct (is_null v) eqn:E; [|exact E].
    unfold Frame.fill_value.
    destruct (Str.contains "float" (Str.lower (col_dtype s2))); reflexivity. }
  split; [|split].
  - eapply mapM_compose; [exact M1|].
    eapply mapM_compose; [exact M2|]. apply mapM_pure.
  - intros v v' E. apply bind_Some in E. destruct E as [v1 [_ E]].
    apply bind_Some in E. destruct E as [v2 [_ E]]. inversion E. apply Hfill.
  - intros v v' E Hn. apply bind_Some in E. destruct E as [v1 [E1 E]].
    apply bind_Some in E. destruct E as [v2 [E2 E]]. inversion E; subst; clear E.
    unfold fill. rewrite (K2 v1 v2 E2 (K1 v v1 E1 Hn)). unfold Frame.fill_value.
    destruct (Str.contains "float" (Str.lower (col_dtype s2))); auto.
Qed.

(** The cells of a result column are computed row by row from the cells of
    its source column. *)
Lemma clean_col_cells (c s : column) :
  clean_col_ c = Some [s] ->
  exists f, mapM f (col_values c) = Some (col_values s).
Proof.
  unfold clean_col. intros H.
  destruct (branch_of mh c); [discriminate| | |];
    apply bind_Some in H; destruct H as [s' [Hs H]]; inversion H; subst s'; clear H.
  - destruct (astype_inv c s _ Hs) as [f [M _]]. exists f. exact M.
  - destruct (astype_inv c s _ Hs) as [f [M _]]. exists f. exact M.
  - destruct (downcast_inv c s Hs) as [f [M _]]. exists f. exact M.
Qed.

Lemma mapM_Forall2 {A B : Type} (f : A -> option B) (l : list A) (l' : list B) :
  mapM f l = Some l' -> Forall2 (fun a b => f a = Some b) l l'.
Proof.
  revert l'. induction l as [|a l IH]; intros l' H; simpl in H.
  - inversion H. constructor.
  - apply bind_Some in H. destruct H as [b [Hb H]].
    apply bind_Some in H. destruct H as [bs [Hbs H]]. inversion H; subst.
    constructor; auto.
Qed.

Lemma filled_fill (fill v : value) :
  filled fill v (if is_null v then fill else v).
Proof.
  destruct v as [|z|[s0|s0| |s0 m e]|t|t]; reflexivity.
Qed.

(** The last branch on a column whose dtype name contains "int". *)
Lemma downcast_int (c s : column) :
  Str.contains "int" (col_dtype c) = true ->
  downcast_ c = Some s ->
  col_dtype s = "int32" /\
  mapM (fun v => v1 <- to_int32 v ;; Some (if is_null v1 then VInt (-1) else v1))
       (col_values c)
  = Some (col_values s).
Proof.
  intros Hint H. unfold downcast in H. rewrite Hint in H.
  apply bind_Some in H. destruct H as [s1 [H1 H]].
  unfold astype in H1. apply bind_Some in H1. destruct H1 as [f [Hf H1]].
  apply bind_Some in H1. destruct H1 as [vs [Hvs H1]].
  inversion Hf; subst f. inversion H1; subst s1. clear Hf H1.
  cbn [col_dtype] in H.
  replace (Str.contains "float" "int32") with false in H by reflexivity.
  cbn [bind] in H. inversion H; subst s. clear H.
  cbn [col_values Frame.fillna_minus_one col_dtype].
  replace (Frame.holds_number "int32") with true by reflexivity.
  rewrite andb_false_r. split; [reflexivity|].
  eapply mapM_compose; [exact Hvs|]. apply mapM_pure.
Qed.

(** The last branch on a column whose dtype name contains "float". *)
Lemma downcast_float (c s : column) :
  Str.contains "int" (col_dtype c) = false ->
  Str.contains "float" (col_dtype c) = true ->
  downcast_ c = Some s ->
  col_dtype s = "float32" /\
  mapM (fun v => v1 <- to_float32 read_float v ;;
                 Some (if is_null v1 then VFloat (float32_of_Z (-1)) else v1))
       (col_values c)
  = Some (col_values s).
Proof.
  intros Hint Hfl H. unfold downcast in H. rewrite Hint in H.
  cbn [bind] in H. rewrite Hfl in H.
  apply bind_Some in H. destruct H as [s1 [H1 H]].
  unfold astype in H1. apply bind_Some in H1. destruct H1 as [f [Hf H1]].
  apply bind_Some in H1. destruct H1 as [vs [Hvs H1]].
  inversion Hf; subst f. inversion H1; subst s1. clear Hf H1.
  inversion H; subst s. clear H.
  cbn [col_values Frame.fillna_minus_one col_dtype].
  replace (Frame.holds_number "float32") with true by reflexivity.
  rewrite andb_false_r. split; [reflexivity|].
  eapply mapM_compose; [exact Hvs|]. apply mapM_pure.
Qed.

(** The last branch on a column of any other dtype: nothing is cast. *)
Lemma downcast_other (c s : column) :
  Str.contains "int" (col_dtype c) = false ->
  Str.contains "float" (col_dtype c) = false ->
  downcast_ c = Some s ->
  s = Frame.fillna_minus_one c.
Proof.
  intros Hint Hfl H. unfold downcast in H. rewrite Hint in H.
  cbn [bind] in H. rewrite Hfl in H. cbn [bind] in H. congruence.
Qed.

Lemma existsb_null_free (l : list value) :
  (forall v, In v l -> is_null v = false) -> existsb is_null l = false.
Proof.
  intros H. destruct (existsb is_null l) eqn:E; [|reflexivity].
  apply existsb_exists in E. destruct E as [v [Hv Hn]].
  rewrite (H v Hv) in Hn. discriminate.
Qed.

Lemma to_datetime_ms_effect (v v' : value) :
  to_datetime_ms read_datetime v = Some v' -> datetime_cast read_datetime v v'.
Proof.
  destruct v as [|z|f|t|t]; simpl; intros H; try discriminate.
  - congruence.
  - apply bind_Some in H. destruct H as [ms [Hms H]]. exists ms. split; congruence.
  - congruence.
Qed.

Lemma to_float32_effect (v v' : value) :
  to_float32 read_float v = Some v' -> float_cast read_float v v'.
Proof.
  destruct v as [|z|f|t|t]; simpl; intros H; try discriminate; try congruence.
  apply bind_Some in H. destruct H as [f [Hf H]]. exists f. split; congruence.
Qed.

Lemma to_int32_effect (v v' : value) :
  to_int32 v = Some v' -> int_cast v v'.
Proof.
  destruct v as [|z|f|t|t]; simpl; intros H; try discriminate; congruence.
Qed.

Lemma astype_cells (c s : column) (dtype : string) (f : value -> option value) :
  caster read_float read_datetime dtype = Some f ->
  astype_ c dtype = Some s ->
  Forall2 (fun v v' => f v = Some v') (col_values c) (col_values s).
Proof.
  unfold astype. intros Hf H. rewrite Hf in H. cbn [bind] in H.
  apply bind_Some in H. destruct H as [vs [Hvs H]]. inversion H; subst s.
  cbn [col_values]. apply mapM_Forall2. exact Hvs.
Qed.

(** What [clean] puts in the place of one column is what its branch is said
    to do. *)
Lemma clean_col_effect (c : column) (cs : list column) :
  clean_col_ c = Some cs ->
  branch_effect read_float read_datetime (branch_of mh c) c cs.
Proof.
  unfold clean_col, branch_effect. intros H.
  destruct (branch_of mh c) eqn:B.
  - congruence.
  - apply bind_Some in H. destruct H as [s [Hs H]]. inversion H; subst cs.
    exists s. split; [reflexivity|]. split; [eapply astype_name; eauto|].
    split; [eapply astype_dtype; eauto|].
    eapply Forall2_impl; [|eapply (astype_cells c s "datetime64[ms]"); eauto; reflexivity].
    intros v v'. apply to_datetime_ms_effect.
  - apply bind_Some in H. destruct H as [s [Hs H]]. inversion H; subst cs.
    exists s. split; [reflexivity|]. split; [eapply astype_name; eauto|].
    split; [eapply astype_dtype; eauto|].
    eapply Forall2_impl; [|eapply (astype_cells c s "float32"); eauto; reflexivity].
    intros v v'. apply to_float32_effect.
  - apply bind_Some in H. destruct H as [s [Hs H]]. inversion H; subst cs.
    exists s. split; [reflexivity|]. split; [eapply downcast_name; eauto|].
    unfold dtype_effect, cell_effect.
    destruct (Str.contains "int" (col_dtype c)) eqn:Hint;
      [|destruct (Str.contains "float" (col_dtype c)) eqn:Hfl].
    + destruct (downcast_int c s Hint Hs) as [D M]. split; [exact D|].
      eapply Forall2_impl; [|apply mapM_Forall2; exact M].
      intros v v' E. cbv beta in E.
      apply bind_Some in E. destruct E as [v1 [E1 E]]. inversion E; subst v'.
      exists v1. split; [apply to_int32_effect; exact E1 | apply filled_fill].
    + destruct (downcast_float c s Hint Hfl Hs) as [D M]. split; [exact D|].
      eapply Forall2_impl; [|apply mapM_Forall2; exact M].
      intros v v' E. cbv beta in E.
      apply bind_Some in E. destruct E as [v1 [E1 E]]. inversion E; subst v'.
      exists v1. split; [apply to_float32_effect; exact E1 | apply filled_fill].
    + rewrite (downcast_other c s Hint Hfl Hs).
      cbn [col_dtype col_values Frame.fillna_minus_one]. split.
      * intros Hnn. rewrite (existsb_null_free _ Hnn). reflexivity.
      * set (fill := fun v => if is_null v then Frame.fill_value (col_dtype c) else v).
        assert (F : forall l, Forall2 (fun v v' => v' = fill v) l (map fill l)).
        { induction l; simpl; constructor; auto. }
        eapply Forall2_impl; [|apply F].
        intros v v' ->. unfold fill, Frame.fill_value.
        destruct (Str.contains "float" (Str.lower (col_dtype c)));
          [right|left]; apply filled_fill.
Qed.

Lemma branch_not_object (c : column) :
  Dict.mem (col_name c) mh = true -> col_dtype c <> "object" ->
  branch_of mh c = NumericDowncast.
Proof.
  unfold branch_of. intros Hm Hd. rewrite Hm. cbn [negb].
  apply String.eqb_neq in Hd. rewrite Hd. reflexivity.
Qed.

Lemma clean_col_not_object (c s : column) :
  clean_col_ c = Some [s] -> col_dtype c <> "object" -> downcast_ c = Some s.
Proof.
  intros H Hd.
  destruct (clean_col_shape _ _ _ c [s] H) as [[_ Habs]|[Hm _]]; [discriminate|].
  unfold clean_col in H. rewrite (branch_not_object c Hm Hd) in H.
  apply bind_Some in H. destruct H as [s' [Hs H]]. inversion H; subst. exact Hs.
Qed.

Lemma clean_col_object (c s : column) :
  clean_col_ c = Some [s] -> col_dtype c = "object" ->
  exists dtype, astype_ c dtype = Some s.
Proof.
  unfold clean_col, branch_of. intros H Hd.
  destruct (negb (Dict.mem (col_name c) mh)); [discriminate|].
  rewrite Hd in H. cbn [String.eqb] in H.
  replace (String.eqb "object" "object") with true in H by reflexivity.
  destruct (Str.mem (col_name c) ["pickup_datetime"; "dropoff_datetime"]);
    apply bind_Some in H; destruct H as [s' [Hs H]]; inversion H; subst;
    eexists; exact Hs.
Qed.

End CleanCells.

(** * The claims about [clean] *)

(** C2. Every column of the result of [clean] is named by a key of
    [must_haves]; the result's labels are the stripped, lowercased and
    remapped input labels that are keys of [must_haves], in input order, so a
    column whose final name is not a key is dropped. The keys of the
    notebook's [must_haves] are the ten listed ones. *)
Theorem C2_clean_keeps_only_must_haves
        (read_float : string -> option spec_float)
        (read_datetime : string -> option Z)
        (df_part : dataframe) (rm mh : Dict.t string) (df' : dataframe) :
  clean read_float read_datetime df_part rm mh = Some df' ->
  (forall c, In c (df_columns df') -> In (col_name c) (Dict.keys mh)) /\
  Frame.columns df'
  = filter (fun n => Dict.mem n mh) (map (final_name rm) (Frame.columns df_part)) /\
  Dict.keys must_haves
  = [ "pickup_datetime"; "dropoff_datetime"; "passenger_count"; "trip_distance";
      "pickup_longitude"; "pickup_latitude"; "rate_code"; "dropoff_longitude";
      "dropoff_latitude"; "fare_amount" ].
Proof.
  intros H. apply clean_spec in H. destruct H as [_ [css [Hcss ->]]].
  assert (Hn : Frame.columns (mkdf (df_index df_part) (List.concat css))
               = filter (fun n => Dict.mem n mh)
                        (map (final_name rm) (Frame.columns df_part))).
  { unfold Frame.columns at 1. cbn [df_columns].
    rewrite (cleaned_names _ _ _ _ _ Hcss), renamed_names. reflexivity. }
  split; [|split; [exact Hn | reflexivity]].
  intros c Hc. apply dict_mem_keys.
  assert (Hin : In (col_name c) (Frame.columns (mkdf (df_index df_part) (List.concat css))))
    by (apply in_map; exact Hc).
  rewrite Hn in Hin. apply filter_In in Hin. tauto.
Qed.

(** C2 on the three example trips. *)
Lemma C2_witness :
  Sample.clean Examples.trips remap must_haves = Some Examples.trips_cleaned /\
  ((forall c, In c (df_columns Examples.trips_cleaned) ->
             In (col_name c) (Dict.keys must_haves)) /\
  Frame.columns Examples.trips_cleaned
  = filter (fun n => Dict.mem n must_haves)
           (map (final_name remap) (Frame.columns Examples.trips)) /\
  Dict.keys must_haves
  = [ "pickup_datetime"; "dropoff_datetime"; "passenger_count"; "trip_distance";
      "pickup_longitude"; "pickup_latitude"; "rate_code"; "dropoff_longitude";
      "dropoff_latitude"; "fare_amount" ]).
Proof.
  assert (H : Sample.clean Examples.trips remap must_haves
              = Some Examples.trips_cleaned)
    by (vm_compute; reflexivity).
  split; [exact H|].
  exact (C2_clean_keeps_only_must_haves Sample.read_float Sample.read_datetime
           Examples.trips remap must_haves Examples.trips_cleaned H).
Defined.

(** C3. The cell that builds [must_haves] announces "columns & dtypes the
    df must have" and lists int32 for passenger_count, but [clean] looks up
    the keys only and takes the cast from the dtype the column arrives with:
    a passenger_count column that arrives as float64 (what an integer column
    with a missing cell is read as) is returned as float32, not as the int32
    listed for it. *)
Theorem C3_float_passenger_count_is_not_int32
        (read_float : string -> option spec_float)
        (read_datetime : string -> option Z) :
  Dict.get must_haves "passenger_count" = Some "int32" /\
  clean read_float read_datetime
        (mkdf [0] [mkcol "passenger_count" "float64" [Examples.f32 2]])
        remap must_haves
  = Some (mkdf [0] [mkcol "passenger_count" "float32" [Examples.f32 2]]).
Proof.
  split; vm_compute; reflexivity.
Qed.

(** C4, as the code has it. Null-filling happens in the last branch only: a
    retained column that arrives with a dtype other than object holds no
    missing value after [clean]; a retained column that arrives as object is
    cast and its missing values stay missing. *)
Theorem C4_clean_fills_nulls_of_non_object_columns
        (read_float : string -> option spec_float)
        (read_datetime : string -> option Z)
        (df_part : dataframe) (rm mh : Dict.t string) (df' : dataframe) :
  clean read_float read_datetime df_part rm mh = Some df' ->
  forall c s, In c (df_columns df_part) -> In s (df_columns df') ->
              col_name s = final_name rm (col_name c) ->
              (col_dtype c <> "object" ->
               forall v, In v (col_values s) -> is_null v = false) /\
              (col_dtype c = "object" ->
               forall i v, nth_error (col_values c) i = Some v -> is_null v = true ->
                           exists v', nth_error (col_values s) i = Some v' /\
                                      is_null v' = true).
Proof.
  intros H c s Hc Hs En.
  assert (Hcol : clean_col read_float read_datetime mh
                           (set_name (final_name rm (col_name c)) c) = Some [s]).
  { eapply clean_column_of; eauto.
    apply in_renamed. exists c. auto. }
  split.
  - intros Hd v Hv.
    apply clean_col_not_object in Hcol; [|exact Hd].
    destruct (downcast_inv _ _ _ _ Hcol) as [f [M [Hnn _]]].
    apply In_nth_error in Hv. destruct Hv as [i Hi].
    assert (Hlen : (i < List.length (col_values c))%nat).
    { cbn [col_values set_name] in M. rewrite <- (mapM_Some_length _ _ _ M).
      apply nth_error_Some. congruence. }
    apply nth_error_Some in Hlen.
    destruct (nth_error (col_values c) i) as [v0|] eqn:E0; [|congruence].
    destruct (mapM_Some_nth _ _ _ M i v0 E0) as [v' [Hi' Hf]].
    rewrite Hi in Hi'. inversion Hi'; subst v'. eapply Hnn; eauto.
  - intros Hd i v Hi Hn.
    apply clean_col_object in Hcol; [|exact Hd].
    destruct Hcol as [dtype Ha].
    destruct (astype_inv _ _ _ _ _ Ha) as [f [M [K _]]].
    destruct (mapM_Some_nth _ _ _ M i v Hi) as [v' [Hi' Hf]].
    exists v'. split; [exact Hi'|]. eapply K; eauto.
Qed.

(** The missing values of the three example trips after [clean]. *)
Lemma C4_witness :
  Sample.clean Examples.trips remap must_haves = Some Examples.trips_cleaned /\
  (forall c s, In c (df_columns Examples.trips) ->
              In s (df_columns Examples.trips_cleaned) ->
              col_name s = final_name remap (col_name c) ->
              (col_dtype c <> "object" ->
               forall v, In v (col_values s) -> is_null v = false) /\
              (col_dtype c = "object" ->
               forall i v, nth_error (col_values c) i = Some v -> is_null v = true ->
                           exists v', nth_error (col_values s) i = Some v' /\
                                      is_null v' = true)).
Proof.
  assert (H : Sample.clean Examples.trips remap must_haves
              = Some Examples.trips_cleaned)
    by (vm_compute; reflexivity).
  split; [exact H|].
  exact (C4_clean_fills_nulls_of_non_object_columns
           Sample.read_float Sample.read_datetime
           Examples.trips remap must_haves Examples.trips_cleaned H).
Defined.

(** C4 as stated fails: a fare_amount column that arrives as object keeps
    its missing value through [clean]. *)
Lemma C4_counterexample :
  ~ (forall df_part df',
        Sample.clean df_part remap must_haves = Some df' ->
        forall s v, In s (df_columns df') -> In v (col_values s) ->
                    is_null v = false).
Proof.
  intros H.
  specialize (H Examples.text_fares
                (mkdf [0; 1] [mkcol "fare_amount" "float32" [Examples.f32 12; VNull]])
                eq_refl
                (mkcol "fare_amount" "float32" [Examples.f32 12; VNull])
                VNull
                (or_introl eq_refl)
                (or_intror (or_introl eq_refl))).
  discriminate H.
Qed.

(** C8. [clean] never changes the set of rows: the index of the result is
    the index of the input, and every column of the result has one cell per
    cell of the input column it comes from, each computed from the cell of
    the same row. *)
Theorem C8_clean_preserves_rows
        (read_float : string -> option spec_float)
        (read_datetime : string -> option Z)
        (df_part : dataframe) (rm mh : Dict.t string) (df' : dataframe) :
  clean read_float read_datetime df_part rm mh = Some df' ->
  df_index df' = df_index df_part /\
  forall s, In s (df_columns df') ->
            exists c f, In c (df_columns df_part) /\
                        col_name s = final_name rm (col_name c) /\
                        List.length (col_values s) = List.length (col_values c) /\
                        mapM f (col_values c) = Some (col_values s).
Proof.
  intros H. split.
  - apply clean_spec in H. destruct H as [_ [css [_ ->]]]. reflexivity.
  - intros s Hs.
    destruct (clean_column_source _ _ _ _ _ _ H) as [_ Hsrc].
    apply Hsrc in Hs. destruct Hs as [c' [Hc' Hcol]].
    apply in_renamed in Hc'. destruct Hc' as [c [Hc ->]].
    destruct (clean_col_cells _ _ _ _ _ Hcol) as [f M].
    cbn [col_values set_name] in M.
    exists c, f. repeat split; auto.
    + destruct (clean_col_shape _ _ _ _ _ Hcol) as [[_ Habs]|[_ [s' [Es Hn]]]];
        [discriminate|].
      inversion Es; subst s'. exact Hn.
    + eapply mapM_Some_length; eauto.
Qed.

(** C8 on the three example trips. *)
Lemma C8_witness :
  Sample.clean Examples.trips remap must_haves = Some Examples.trips_cleaned /\
  (df_index Examples.trips_cleaned = df_index Examples.trips /\
  forall s, In s (df_columns Examples.trips_cleaned) ->
            exists c f, In c (df_columns Examples.trips) /\
                        col_name s = final_name remap (col_name c) /\
                        List.length (col_values s) = List.length (col_values c) /\
                        mapM f (col_values c) = Some (col_values s)).
Proof.
  assert (H : Sample.clean Examples.trips remap must_haves
              = Some Examples.trips_cleaned)
    by (vm_compute; reflexivity).
  split; [exact H|].
  exact (C8_clean_preserves_rows Sample.read_float Sample.read_datetime
           Examples.trips remap must_haves Examples.trips_cleaned H).
Defined.

(** * Column names *)

Module StrFacts.
Import Str.

Lemma is_space_lower_char (c : ascii) : is_space (lower_char c) = is_space c.
Proof.
  destruct c as [[] [] [] [] [] [] [] []]; reflexivity.
Qed.

Lemma lstrip_blank (s : string) : all_space s = true -> lstrip s = "".
Proof.
  induction s as [|c s IH]; simpl; [reflexivity|].
  intros H. apply andb_true_iff in H. destruct H as [Hc Hs].
  rewrite Hc. auto.
Qed.

Lemma rstrip_blank (s : string) : all_space s = true -> rstrip s = "".
Proof.
  induction s as [|c s IH]; simpl; [reflexivity|].
  intros H. apply andb_true_iff in H. destruct H as [Hc Hs].
  rewrite (IH Hs), Hc. reflexivity.
Qed.

Lemma lstrip_app_blank (l s : string) :
  all_space l = true -> lstrip (l ++ s) = lstrip s.
Proof.
  induction l as [|c l IH]; simpl; [reflexivity|].
  intros H. apply andb_true_iff in H. destruct H as [Hc Hl].
  rewrite Hc. auto.
Qed.

Lemma rstrip_app_blank (s r : string) :
  all_space r = true -> rstrip (s ++ r) = rstrip s.
Proof.
  intros Hr. induction s as [|c s IH]; simpl.
  - apply rstrip_blank. assumption.
  - rewrite IH. reflexivity.
Qed.

Lemma strip_app_blank (s r : string) :
  all_space r = true -> strip (s ++ r) = strip s.
Proof.
  intros Hr. unfold strip. induction s as [|c s IH]; simpl.
  - rewrite (lstrip_blank r Hr). reflexivity.
  - destruct (is_space c); [exact IH|].
    change (String c (s ++ r)) with (String c s ++ r).
    apply rstrip_app_blank. assumption.
Qed.

(** Whitespace around a name does not matter. *)
Lemma strip_padded (l s r : string) :
  all_space l = true -> all_space r = true -> strip (l ++ s ++ r) = strip s.
Proof.
  intros Hl Hr. unfold strip. rewrite lstrip_app_blank by assumption.
  apply strip_app_blank. assumption.
Qed.

Lemma lower_lstrip (s : string) : lower (lstrip s) = lstrip (lower s).
Proof.
  induction s as [|c s IH]; simpl; [reflexivity|].
  rewrite is_space_lower_char. destruct (is_space c); [exact IH | reflexivity].
Qed.

Lemma lower_rstrip (s : string) : lower (rstrip s) = rstrip (lower s).
Proof.
  induction s as [|c s IH]; simpl; [reflexivity|].
  rewrite <- IH, is_space_lower_char.
  destruct (rstrip s); simpl; [destruct (is_space c)|]; reflexivity.
Qed.

Lemma lower_strip (s : string) : lower (strip s) = strip (lower s).
Proof.
  unfold strip. rewrite lower_rstrip, lower_lstrip. reflexivity.
Qed.

Lemma distinct_NoDup (l : list string) : distinct l = true <-> NoDup l.
Proof.
  induction l as [|x l IH]; simpl.
  - split; [constructor | reflexivity].
  - rewrite andb_true_iff, negb_true_iff, IH. split.
    + intros [Hx Hnd]. constructor; [|assumption].
      intros Hin. unfold mem in Hx.
      assert (E : existsb (String.eqb x) l = true).
      { apply existsb_exists. exists x. split; [assumption|apply String.eqb_refl]. }
      congruence.
    + intros H. inversion H as [|? ? Hx Hnd]; subst. split; [|assumption].
      unfold mem. destruct (existsb (String.eqb x) l) eqn:E; [|reflexivity].
      apply existsb_exists in E. destruct E as [y [Hy Exy]].
      apply String.eqb_eq in Exy. subst y. contradiction.
Qed.

End StrFacts.

Lemma mapM_Some_in {A B : Type} (f : A -> option B) (l : list A) (l' : list B) :
  mapM f l = Some l' ->
  forall a, In a l -> exists b, f a = Some b /\ In b l'.
Proof.
  intros H a Ha. apply In_nth_error in Ha. destruct Ha as [i Hi].
  destruct (mapM_Some_nth f l l' H i a Hi) as [b [Hb Hf]].
  exists b. split; [assumption|]. eapply nth_error_In; eauto.
Qed.

(** C9. Before [remap] is applied every column name is stripped of
    surrounding whitespace and lowercased, so the renaming does not see the
    case of the letters or the whitespace around the original name; a column
    whose stripped, lowercased name is "ratecodeid" comes out of [clean] as
    rate_code. *)
Theorem C9_renaming_ignores_case_and_padding
        (read_float : string -> option spec_float)
        (read_datetime : string -> option Z)
        (df_part df' : dataframe) :
  clean read_float read_datetime df_part remap must_haves = Some df' ->
  Frame.columns df'
  = filter (fun n => Dict.mem n must_haves)
           (map (fun n => let n' := Str.lower (Str.strip n) in
                          match Dict.get remap n' with Some m => m | None => n' end)
                (Frame.columns df_part)) /\
  (forall l n r n' : string,
      Str.all_space l = true -> Str.all_space r = true ->
      Str.lower n = Str.lower n' ->
      final_name remap (l ++ n ++ r) = final_name remap n') /\
  (forall c, In c (df_columns df_part) ->
             Str.lower (Str.strip (col_name c)) = "ratecodeid" ->
             exists s f, In s (df_columns df') /\ col_name s = "rate_code" /\
                         mapM f (col_values c) = Some (col_values s)).
Proof.
  intros H. split; [|split].
  - apply clean_spec in H. destruct H as [_ [css [Hcss ->]]].
    unfold Frame.columns at 1. cbn [df_columns].
    rewrite (cleaned_names _ _ _ _ _ Hcss), renamed_names. reflexivity.
  - intros l n r n' Hl Hr E. unfold final_name.
    rewrite StrFacts.strip_padded by assumption.
    rewrite !StrFacts.lower_strip, E. reflexivity.
  - intros c Hc En.
    pose proof H as H0. apply clean_spec in H0. destruct H0 as [_ [css [Hcss ->]]].
    assert (Hfin : final_name remap (col_name c) = "rate_code")
      by (unfold final_name; rewrite En; reflexivity).
    assert (Hin : In (set_name "rate_code" c) (renamed remap df_part)).
    { apply in_renamed. exists c. rewrite Hfin. auto. }
    destruct (mapM_Some_in _ _ _ Hcss _ Hin) as [cs [Hcs Hcss_in]].
    destruct (clean_col_shape _ _ _ _ _ Hcs) as [[Habs _]|[_ [s [-> Hs]]]];
      [discriminate|].
    destruct (clean_col_cells _ _ _ _ _ Hcs) as [f M].
    exists s, f. cbn [df_columns]. repeat split.
    + apply in_concat. exists [s]. split; [assumption | left; reflexivity].
    + exact Hs.
    + exact M.
Qed.

(** C9 on the three example trips, whose rate code arrives as RatecodeID. *)
Lemma C9_witness :
  Sample.clean Examples.trips remap must_haves = Some Examples.trips_cleaned /\
  (Frame.columns Examples.trips_cleaned
  = filter (fun n => Dict.mem n must_haves)
           (map (fun n => let n' := Str.lower (Str.strip n) in
                          match Dict.get remap n' with Some m => m | None => n' end)
                (Frame.columns Examples.trips)) /\
  (forall l n r n' : string,
      Str.all_space l = true -> Str.all_space r = true ->
      Str.lower n = Str.lower n' ->
      final_name remap (l ++ n ++ r) = final_name remap n') /\
  (forall c, In c (df_columns Examples.trips) ->
             Str.lower (Str.strip (col_name c)) = "ratecodeid" ->
             exists s f, In s (df_columns Examples.trips_cleaned) /\
                         col_name s = "rate_code" /\
                         mapM f (col_values c) = Some (col_values s))).
Proof.
  assert (H : Sample.clean Examples.trips remap must_haves
              = Some Examples.trips_cleaned)
    by (vm_compute; reflexivity).
  split; [exact H|].
  exact (C9_renaming_ignores_case_and_padding Sample.read_float Sample.read_datetime
           Examples.trips Examples.trips_cleaned H).
Defined.

(** C7. [clean] is one terminating pass: it is a total function, equal to
    the single pass that visits every renamed column once, in order, and
    sends it through exactly one branch (drop, datetime cast, string-to-float
    cast, or numeric downcast with null-fill). Nothing is caught: a repeated
    label or a failed cast anywhere makes the whole call raise, and in every
    other case the cleaned frame is returned. The frame returned has the
    rows of the input and, in input order, what the branch of each column
    leaves of it: nothing for a dropped column; otherwise one column under
    the same label, its cells read as timestamps (dtype datetime64[ms]),
    read as floats (float32), or downcast to int32 or float32 with every
    missing cell replaced by -1. *)
Theorem C7_clean_is_one_pass
        (read_float : string -> option spec_float)
        (read_datetime : string -> option Z)
        (df_part : dataframe) (rm mh : Dict.t string) :
  clean read_float read_datetime df_part rm mh
  = (if Str.distinct (map (final_name rm) (Frame.columns df_part))
     then single_pass read_float read_datetime df_part rm mh
     else None) /\
  (forall css,
      mapM (clean_col read_float read_datetime mh) (renamed rm df_part) = Some css ->
      List.length css = List.length (df_columns df_part) /\
      forall c cs, In c (renamed rm df_part) ->
                   clean_col read_float read_datetime mh c = Some cs ->
                   match branch_of mh c with
                   | Dropped => cs = []
                   | _ => exists s, cs = [s]
                   end) /\
  (Str.distinct (map (final_name rm) (Frame.columns df_part)) = true ->
   (forall c, In c (renamed rm df_part) ->
              clean_col read_float read_datetime mh c <> None) ->
   exists df', clean read_float read_datetime df_part rm mh = Some df') /\
  (forall df',
      clean read_float read_datetime df_part rm mh = Some df' ->
      df_index df' = df_index df_part /\
      exists css,
        df_columns df' = List.concat css /\
        Forall2 (fun c cs => branch_effect read_float read_datetime
                                           (branch_of mh c) c cs)
                (renamed rm df_part) css).
Proof.
  assert (Eq : clean read_float read_datetime df_part rm mh
               = (if Str.distinct (map (final_name rm) (Frame.columns df_part))
                  then single_pass read_float read_datetime df_part rm mh
                  else None)).
  { destruct (Str.distinct _) eqn:D.
    - apply StrFacts.distinct_NoDup in D. rewrite <- renamed_names in D.
      unfold single_pass.
      destruct (mapM _ (renamed rm df_part)) as [css|] eqn:M; cbn [bind].
      + apply clean_spec. split; [assumption|]. exists css. auto.
      + destruct (clean _ _ df_part rm mh) as [df'|] eqn:C; [|reflexivity].
        apply clean_spec in C. destruct C as [_ [css [M' _]]]. congruence.
    - destruct (clean _ _ df_part rm mh) as [df'|] eqn:C; [|reflexivity].
      apply clean_spec in C. destruct C as [Hnd _].
      rewrite renamed_names in Hnd. apply StrFacts.distinct_NoDup in Hnd. congruence. }
  split; [exact Eq|split; [|split]].
  - intros css M. split.
    + rewrite (mapM_Some_length _ _ _ M). unfold renamed. apply length_map.
    + intros c cs _ Hc.
      destruct (clean_col_shape _ _ _ _ _ Hc) as [[Hm ->]|[Hm [s [-> _]]]].
      * apply branch_dropped in Hm. rewrite Hm. reflexivity.
      * destruct (branch_of mh c) eqn:B.
        -- apply branch_dropped in B. congruence.
        -- exists s; reflexivity.
        -- exists s; reflexivity.
        -- exists s; reflexivity.
  - intros D Hall. rewrite Eq, D. unfold single_pass.
    destruct (mapM_total _ _ Hall) as [css M]. rewrite M. cbn [bind].
    eexists. reflexivity.
  - intros df' C. apply clean_spec in C. destruct C as [_ [css [M ->]]].
    split; [reflexivity|]. exists css. split; [reflexivity|].
    eapply Forall2_impl; [|apply mapM_Forall2; exact M].
    intros c cs. apply clean_col_effect.
Qed.

(** A missing value of a retained non-object column is -1 after [clean]. *)
Lemma filled_cell
      (read_float : string -> option spec_float)
      (read_datetime : string -> option Z)
      (ddf cleaned : dataframe) (c : column) (col : string) (i : nat) (v : value) :
  clean read_float read_datetime ddf remap must_haves = Some cleaned ->
  In c (df_columns ddf) ->
  final_name remap (col_name c) = col ->
  Dict.mem col must_haves = true ->
  col_dtype c <> "object" ->
  nth_error (col_values c) i = Some v -> is_null v = true ->
  cell cleaned col i = Some (VInt (-1)) \/
  cell cleaned col i = Some (VFloat (float32_of_Z (-1))).
Proof.
  intros Hclean Hin Hname Hmem Hdtype Hnth Hnull.
  destruct (clean_column_source _ _ _ _ _ _ Hclean) as [Hnd Hsrc].
  pose proof Hclean as Hc0. apply clean_spec in Hc0.
  destruct Hc0 as [_ [css [Hcss _]]].
  assert (Hren : In (set_name col c) (renamed remap ddf)).
  { apply in_renamed. exists c. rewrite Hname. auto. }
  destruct (mapM_Some_in _ _ _ Hcss _ Hren) as [cs [Hcs _]].
  destruct (clean_col_shape _ _ _ _ _ Hcs) as [[Habs _]|[_ [s [-> Hs]]]];
    [cbn [col_name set_name] in Habs; congruence|].
  cbn [col_name set_name] in Hs.
  assert (Hs_in : In s (df_columns cleaned)).
  { apply Hsrc. exists (set_name col c). auto. }
  pose proof (clean_col_not_object _ _ _ _ _ Hcs Hdtype) as Hdown.
  destruct (downcast_inv _ _ _ _ Hdown) as [f [M [_ Hfill]]].
  cbn [col_values set_name] in M.
  destruct (mapM_Some_nth _ _ _ M i v Hnth) as [v' [Hv' Hf]].
  assert (Hcell : cell cleaned col i = Some v').
  { unfold cell. destruct cleaned as [idx cols]. rewrite <- Hs.
    rewrite (getitem_distinct idx cols s Hnd Hs_in). exact Hv'. }
  rewrite Hcell. destruct (Hfill v v' Hf Hnull) as [-> | ->]; auto.
Qed.

Lemma minus_one_out_of_range (hi : Z) (o : option value) :
  o = Some (VInt (-1)) \/ o = Some (VFloat (float32_of_Z (-1))) ->
  ~ strictly_between 0 hi o.
Proof.
  intros [-> | ->]; simpl.
  - lia.
  - intros [q [E [Habs _]]]. vm_compute in E. injection E as <-.
    vm_compute in Habs. discriminate.
Qed.

(** C10. A missing passenger_count or fare_amount in a column that arrives
    with a dtype other than object is replaced by -1 in [clean], and the
    filter that follows drops the row: it is not among the rows of the frame
    handed to training. *)
Theorem C10_null_rows_are_filtered_out
        (read_float : string -> option spec_float)
        (read_datetime : string -> option Z)
        (ddf taxi_df : dataframe) :
  etl read_float read_datetime ddf = Some taxi_df ->
  exists cleaned mask,
    clean read_float read_datetime ddf remap must_haves = Some cleaned /\
    filter_step cleaned = Some (Query.apply_mask mask cleaned) /\
    Frame.select (Query.apply_mask mask cleaned) fields = Some taxi_df /\
    df_index taxi_df = Query.keep mask (df_index ddf) /\
    forall c col i v,
      In c (df_columns ddf) ->
      final_name remap (col_name c) = col ->
      col = "passenger_count" \/ col = "fare_amount" ->
      col_dtype c <> "object" ->
      nth_error (col_values c) i = Some v -> is_null v = true ->
      (cell cleaned col i = Some (VInt (-1)) \/
       cell cleaned col i = Some (VFloat (float32_of_Z (-1)))) /\
      ~ In i (Query.kept_rows mask).
Proof.
  unfold etl. intros H.
  apply bind_Some in H. destruct H as [cleaned [Hclean H]].
  apply bind_Some in H. destruct H as [filtered [Hfilter Hselect]].
  destruct (QueryFacts.filter_step_mask _ _ Hfilter) as [q [mask [Hq [Hm ->]]]].
  exists cleaned, mask.
  split; [assumption|]. split; [assumption|]. split; [assumption|].
  split.
  { unfold Frame.select in Hselect.
    apply bind_Some in Hselect. destruct Hselect as [cs [_ E]].
    inversion E; subst taxi_df. cbn [df_index Query.apply_mask].
    pose proof Hclean as Hc0. apply clean_spec in Hc0.
    destruct Hc0 as [_ [css [_ ->]]]. reflexivity. }
  intros c col i v Hin Hname Hcol Hdtype Hnth Hnull.
  assert (Hmem : Dict.mem col must_haves = true)
    by (destruct Hcol as [-> | ->]; reflexivity).
  pose proof (filled_cell _ _ _ _ _ _ _ _ Hclean Hin Hname Hmem Hdtype Hnth Hnull)
    as Hcell.
  split; [exact Hcell|].
  intros Hkept.
  apply QueryFacts.kept_rows_iff in Hkept.
  apply (QueryFacts.eval_holds _ _ _ Hm) in Hkept.
  apply (QueryFacts.holds_query _ _ _ Hq) in Hkept.
  destruct Hkept as [Hfare [Hpass _]].
  destruct Hcol as [-> | ->].
  - exact (minus_one_out_of_range _ _ Hcell Hpass).
  - exact (minus_one_out_of_range _ _ Hcell Hfare).
Qed.

(** C10 on the three example trips: the third has no passenger count. *)
Lemma C10_witness :
  Sample.etl Examples.trips = Some Examples.trips_training /\
  (exists cleaned mask,
      Sample.clean Examples.trips remap must_haves = Some cleaned /\
      filter_step cleaned = Some (Query.apply_mask mask cleaned) /\
      Frame.select (Query.apply_mask mask cleaned) fields
      = Some Examples.trips_training /\
      df_index Examples.trips_training = Query.keep mask (df_index Examples.trips) /\
      forall c col i v,
        In c (df_columns Examples.trips) ->
        final_name remap (col_name c) = col ->
        col = "passenger_count" \/ col = "fare_amount" ->
        col_dtype c <> "object" ->
        nth_error (col_values c) i = Some v -> is_null v = true ->
        (cell cleaned col i = Some (VInt (-1)) \/
         cell cleaned col i = Some (VFloat (float32_of_Z (-1)))) /\
        ~ In i (Query.kept_rows mask)).
Proof.
  assert (H : Sample.etl Examples.trips = Some Examples.trips_training)
    by (vm_compute; reflexivity).
  split; [exact H|].
  exact (C10_null_rows_are_filtered_out Sample.read_float Sample.read_datetime
           Examples.trips Examples.trips_training H).
Defined.


(** * Notebook 1: what the model is trained and scored on *)

(** Whatever the splitter returns, the second cell rebinds the four names to
    the whole of [X] and [y]. *)
Lemma split_is_discarded
      (Booster : Type)
      (train_test_split : dataframe -> column -> Z -> Z -> bool ->
                          dataframe * dataframe * column * column)
      (xgb_train : Dict.t string -> DaskDMatrix -> Z ->
                   list (DaskDMatrix * string) -> Booster)
      (xgb_predict : Booster -> DaskDMatrix -> list value)
      (X : dataframe) (y : column) :
  let k := split_train_evaluate Booster train_test_split xgb_train xgb_predict X y in
  k_dmatrix_train k = mkDMatrix X y /\
  k_dmatrix_test k = mkDMatrix X y /\
  k_model_xgb k
  = xgb_train params (mkDMatrix X y) 2000
              [(mkDMatrix X y, "train"); (mkDMatrix X y, "test")] /\
  k_y_predict k = xgb_predict (k_model_xgb k) (mkDMatrix X y) /\
  k_t k = y.
Proof.
  unfold split_train_evaluate, persist.
  destruct (train_test_split X y 80 42 true) as [[[X_train X_test] y_train] y_test].
  simpl. repeat split; reflexivity.
Qed.

(** C5, on five rows. The split yields four training rows and one held-out
    row, yet the matrix handed to [xgb.dask.train] holds all five rows, and
    so do the labels the predictions are scored against: the model is neither
    trained on the training portion nor evaluated on the held-out portion. *)
Theorem C5_trained_and_scored_on_all_rows :
  let '(X_train, X_test, y_train, y_test) :=
    SampleSplit.train_test_split Examples.X5 Examples.y5 80 42 true in
  let k := split_train_evaluate DaskDMatrix SampleSplit.train_test_split
                                SampleSplit.xgb_train SampleSplit.xgb_predict
                                Examples.X5 Examples.y5 in
  List.length (df_index X_train) = 4%nat /\
  List.length (df_index X_test) = 1%nat /\
  k_dmatrix_train k = mkDMatrix Examples.X5 Examples.y5 /\
  k_dmatrix_train k <> mkDMatrix X_train y_train /\
  k_dmatrix_test k = mkDMatrix Examples.X5 Examples.y5 /\
  k_t k = Examples.y5 /\
  k_t k <> y_test.
Proof.
  vm_compute. repeat split; try reflexivity; intros H; discriminate H.
Qed.

(** * Notebook 2: the order of the calls *)

Module VertexFacts.
Import Vertex.

(** The service refuses to deploy a model it does not have. *)
Lemma deploy_needs_model (c : cloud) (m : Model) (e : Endpoint)
      (dn mt : string) (lo hi tr : Z) (at_ : string) (ac : Z) :
  has_model c (model_resource m) = false ->
  deploy m e dn mt lo hi tr at_ ac c = None.
Proof. unfold deploy. intros ->. reflexivity. Qed.

(** The service refuses to deploy to an endpoint it does not have. *)
Lemma deploy_needs_endpoint (c : cloud) (m : Model) (e : Endpoint)
      (dn mt : string) (lo hi tr : Z) (at_ : string) (ac : Z) :
  has_endpoint c (endpoint_name e) = false ->
  deploy m e dn mt lo hi tr at_ ac c = None.
Proof. unfold deploy. intros ->. rewrite andb_false_r. reflexivity. Qed.

(** A request is not answered when no endpoint at its URL serves a model. *)
Lemma raw_predict_needs_deployment (c : cloud) (uri body : string) :
  (forall e, In e (addressed c uri) -> serves c (endpoint_name e) = false) ->
  exists c', raw_predict uri body c = Some (false, c').
Proof.
  intros H. unfold raw_predict.
  destruct (existsb _ (addressed c uri)) eqn:E.
  - apply existsb_exists in E. destruct E as [e [He Hs]].
    rewrite (H e He) in Hs. discriminate.
  - eexists. reflexivity.
Qed.

(** The URL the notebook builds is the address of an endpoint of the
    notebook's project and region, and of no endpoint elsewhere. *)
Lemma uri_of_address (e : Endpoint) :
  endpoint_project e = Notebook2.PROJECT_ID ->
  endpoint_location e = Notebook2.REGION ->
  Notebook2.uri_of e = raw_predict_url e.
Proof.
  intros Hp Hl. unfold Notebook2.uri_of, raw_predict_url.
  rewrite Hp, Hl. reflexivity.
Qed.

Lemma existsb_last {A : Type} (p : A -> bool) (l : list A) (a : A) :
  p a = true -> existsb p (l ++ [a]) = true.
Proof.
  intros H. rewrite existsb_app. simpl. rewrite H, orb_true_r. reflexivity.
Qed.

End VertexFacts.

(** C6. Run top to bottom on any state of the service, and whatever names
    the service gives to what it creates, notebook 2 makes its calls in this
    order and no other: init, then the upload that registers the artifacts
    and the Triton image as a model, then the creation of an endpoint, then
    the deployment of that model to that endpoint, then one rawPredict
    request. The URL of the request is the rawPredict address of that
    endpoint, the service holds that endpoint at it, and the request is
    answered. In the log every call comes after the calls it depends on. *)
Theorem C6_notebook2_calls_in_order
        (model_id endpoint_id : Vertex.cloud -> string) (c0 : Vertex.cloud) :
  exists m e d c1,
    Notebook2.notebook model_id endpoint_id c0 = Some (true, c1) /\
    let calls :=
      [ Vertex.Init "merlin-on-gcp" "us-central1" "triton_model_repository";
        Vertex.ModelUpload m;
        Vertex.EndpointCreate e;
        Vertex.ModelDeploy d;
        Vertex.RawPredict (Notebook2.uri_of e) "simple.json" ] in
    Vertex.log c1 = (Vertex.log c0 ++ calls)%list /\
    Vertex.in_order [] calls = true /\
    List.length (filter Notebook2.is_raw_predict calls) = 1%nat /\
    m = Vertex.mkModel "triton-simple-v00" "gcr.io/merlin-on-gcp/triton-deploy"
                       ["tritonserver"] "gs://triton_model_repository/models"
                       (Vertex.model_resource m) /\
    e = Vertex.mkEndpoint "endpoint-simple-v00" "merlin-on-gcp" "us-central1"
                          (Vertex.endpoint_name e) /\
    d = Vertex.mkDeployment (Vertex.model_resource m) (Vertex.endpoint_name e)
                            "triton-simple-v00" "n1-standard-4" 1 2 100
                            "NVIDIA_TESLA_T4" 1 /\
    In m (Vertex.models c1) /\
    In e (Vertex.endpoints c1) /\
    In d (Vertex.deployments c1) /\
    Notebook2.uri_of e
    = ("https://us-central1-aiplatform.googleapis.com/v1/projects/merlin-on-gcp/locations/us-central1/endpoints/"
       ++ Vertex.endpoint_name e ++ ":rawPredict")%string /\
    In e (Vertex.addressed c1 (Notebook2.uri_of e)).
Proof.
  destruct c0 as [p0 l0 ms es ds lg].
  set (c1 := Vertex.mkCloud "merlin-on-gcp" "us-central1" ms es ds
                            (lg ++ [Vertex.Init "merlin-on-gcp" "us-central1"
                                                "triton_model_repository"])).
  set (m := Vertex.mkModel "triton-simple-v00" "gcr.io/merlin-on-gcp/triton-deploy"
                           ["tritonserver"] "gs://triton_model_repository/models"
                           (model_id c1)).
  set (c2 := Vertex.mkCloud "merlin-on-gcp" "us-central1" (ms ++ [m]) es ds
                            (Vertex.log c1 ++ [Vertex.ModelUpload m])).
  set (e := Vertex.mkEndpoint "endpoint-simple-v00" "merlin-on-gcp" "us-central1"
                              (endpoint_id c2)).
  set (d := Vertex.mkDeployment (Vertex.model_resource m) (Vertex.endpoint_name e)
                                "triton-simple-v00" "n1-standard-4" 1 2 100
                                "NVIDIA_TESLA_T4" 1).
  assert (Hu : Notebook2.uri_of e = Vertex.raw_predict_url e)
    by (apply VertexFacts.uri_of_address; reflexivity).
  assert (Ha : In e (Vertex.addressed
                       (Vertex.mkCloud "merlin-on-gcp" "us-central1" (ms ++ [m])
                                       (es ++ [e]) (ds ++ [d]) [])
                       (Notebook2.uri_of e))).
  { unfold Vertex.addressed. cbn [Vertex.endpoints]. apply filter_In. split.
    - apply in_or_app. right. left. reflexivity.
    - rewrite Hu. apply String.eqb_refl. }
  exists m, e, d.
  eexists. split.
  - unfold Notebook2.notebook, Vertex.bindM.
    change (Vertex.init Notebook2.PROJECT_ID Notebook2.REGION
                        Notebook2.STAGING_BUCKET
                        (Vertex.mkCloud p0 l0 ms es ds lg))
      with (Some (tt, c1)).
    cbv iota beta.
    change (Vertex.Model_upload model_id Notebook2.MODEL_DISPLAY_NAME
                                Notebook2.IMAGE_URI ["tritonserver"]
                                Notebook2.MODEL_ARTIFACTS_REPOSITORY c1)
      with (Some (m, c2)).
    cbv iota beta.
    change (Vertex.Endpoint_create endpoint_id Notebook2.ENDPOINT_DISPLAY_NAME c2)
      with (Some (e, Vertex.mkCloud "merlin-on-gcp" "us-central1" (ms ++ [m])
                                    (es ++ [e]) ds
                                    (Vertex.log c2 ++ [Vertex.EndpointCreate e]))).
    cbv iota beta zeta.
    unfold Vertex.deploy, Vertex.has_model, Vertex.has_endpoint.
    cbn [Vertex.models Vertex.endpoints].
    rewrite (VertexFacts.existsb_last _ ms m) by apply String.eqb_refl.
    rewrite (VertexFacts.existsb_last _ es e) by apply String.eqb_refl.
    cbn [andb]. unfold Vertex.raw_predict.
    match goal with
    | |- Some (?b, _) = _ => assert (Hb : b = true)
    end.
    { apply existsb_exists. exists e. split.
      - unfold Vertex.addressed in *. cbn [Vertex.endpoints Vertex.logged] in *.
        exact Ha.
      - unfold Vertex.serves, Vertex.logged. cbn [Vertex.deployments].
        apply VertexFacts.existsb_last. apply String.eqb_refl. }
    rewrite Hb. reflexivity.
  - cbv zeta. split; [|split; [|split]].
    + unfold Vertex.logged. cbn [Vertex.log].
      unfold c2, c1. cbn [Vertex.log]. rewrite <- !app_assoc. reflexivity.
    + unfold Vertex.in_order, Vertex.depends_met. cbn [app existsb andb orb
        Vertex.uploads Vertex.creates Vertex.deploys_to Vertex.creates_addressed
        Vertex.dep_model Vertex.dep_endpoint].
      cbn [d Vertex.dep_model Vertex.dep_endpoint].
      rewrite <- Hu, !String.eqb_refl. reflexivity.
    + reflexivity.
    + split; [reflexivity|]. split; [reflexivity|]. split; [reflexivity|].
      unfold Vertex.logged.
      cbn [Vertex.models Vertex.endpoints Vertex.deployments].
      split; [apply in_or_app; right; left; reflexivity|].
      split; [apply in_or_app; right; left; reflexivity|].
      split; [apply in_or_app; right; left; reflexivity|].
      split; [reflexivity|].
      unfold Vertex.addressed in *. cbn [Vertex.endpoints] in *. exact Ha.
Qed.

(** On a new project, with a service that numbers what it creates from 0,
    the request goes to endpoint 0 and is answered. *)
Example notebook2_on_a_new_project :
  exists c1,
    SampleService.notebook SampleService.new_project = Some (true, c1) /\
    List.last (Vertex.log c1) (Vertex.Init "" "" "")
    = Vertex.RawPredict
        "https://us-central1-aiplatform.googleapis.com/v1/projects/merlin-on-gcp/locations/us-central1/endpoints/0:rawPredict"
        "simple.json".
Proof. eexists. split; vm_compute; reflexivity. Qed.

(** The same calls in another order are not in order: a deployment before
    the endpoint is created, or a request before the deployment. *)
Example deploy_before_create_is_out_of_order :
  let m := Vertex.mkModel "triton-simple-v00" "" [] "" "0" in
  let e := Vertex.mkEndpoint "endpoint-simple-v00" "merlin-on-gcp" "us-central1" "0" in
  let d := Vertex.mkDeployment "0" "0" "" "" 1 2 100 "" 1 in
  Vertex.in_order [] [Vertex.ModelUpload m; Vertex.ModelDeploy d;
                      Vertex.EndpointCreate e;
                      Vertex.RawPredict (Notebook2.uri_of e) "simple.json"] = false /\
  Vertex.in_order [] [Vertex.ModelUpload m; Vertex.EndpointCreate e;
                      Vertex.RawPredict (Notebook2.uri_of e) "simple.json";
                      Vertex.ModelDeploy d] = false /\
  Vertex.in_order [] [Vertex.ModelUpload m; Vertex.EndpointCreate e;
                      Vertex.ModelDeploy d;
                      Vertex.RawPredict "" "simple.json"] = false /\
  Vertex.in_order [] [Vertex.ModelUpload m; Vertex.EndpointCreate e;
                      Vertex.ModelDeploy d;
                      Vertex.RawPredict (Notebook2.uri_of e) "simple.json"] = true.
Proof. vm_compute. repeat split. Qed.

(** * Further properties of [clean] *)

Lemma mem_map_values {V W : Type} (f : V -> W) (d : Dict.t V) (k : string) :
  Dict.mem k (map (fun kv => (fst kv, f (snd kv))) d) = Dict.mem k d.
Proof.
  unfold Dict.mem. induction d as [|[k' v] d IH]; simpl; [reflexivity|].
  destruct (String.eqb k k'); [reflexivity | exact IH].
Qed.

Lemma for_each_ext (b1 b2 : dataframe -> string -> option dataframe)
      (cols : list string) (st : dataframe) :
  (forall st' col, b1 st' col = b2 st' col) ->
  for_each b1 cols st = for_each b2 cols st.
Proof.
  intros H. revert st. induction cols as [|col cols IH]; intros st; simpl.
  - reflexivity.
  - rewrite H. destruct (b2 st col); simpl; [apply IH | reflexivity].
Qed.

Lemma clean_body_ext
      (read_float : string -> option spec_float)
      (read_datetime : string -> option Z)
      (mh mh' : Dict.t string) (st : dataframe) (col : string) :
  (forall k, Dict.mem k mh = Dict.mem k mh') ->
  clean_body read_float read_datetime mh st col
  = clean_body read_float read_datetime mh' st col.
Proof. intros H. unfold clean_body. rewrite H. reflexivity. Qed.

(** X1. [clean] reads the keys of [must_haves] and nothing else: whatever
    the dtypes listed there are replaced by, the result is the same. *)
Theorem X1_clean_never_reads_listed_dtypes
        (read_float : string -> option spec_float)
        (read_datetime : string -> option Z)
        (f : string -> string)
        (df_part : dataframe) (rm mh : Dict.t string) :
  clean read_float read_datetime df_part rm
        (map (fun kv => (fst kv, f (snd kv))) mh)
  = clean read_float read_datetime df_part rm mh.
Proof.
  unfold clean. apply for_each_ext. intros st col.
  apply clean_body_ext. intros k. apply mem_map_values.
Qed.

(** X2. When two columns end up with the same label after stripping,
    lowercasing and remapping, [clean] raises. *)
Theorem X2_clean_raises_on_repeated_label
        (read_float : string -> option spec_float)
        (read_datetime : string -> option Z)
        (df_part : dataframe) (rm mh : Dict.t string) :
  Str.distinct (map (final_name rm) (Frame.columns df_part)) = false ->
  clean read_float read_datetime df_part rm mh = None.
Proof.
  intros D.
  destruct (clean read_float read_datetime df_part rm mh) as [df'|] eqn:C;
    [|reflexivity].
  apply clean_spec in C. destruct C as [Hnd _].
  rewrite renamed_names in Hnd. apply StrFacts.distinct_NoDup in Hnd. congruence.
Qed.

(** A rate code delivered twice, under its old and its new name. *)
Lemma X2_witness :
  Str.distinct (map (final_name remap) (Frame.columns Examples.two_rate_codes))
  = false /\
  Sample.clean Examples.two_rate_codes remap must_haves = None.
Proof.
  assert (H : Str.distinct
                (map (final_name remap) (Frame.columns Examples.two_rate_codes))
              = false) by reflexivity.
  split; [exact H|].
  exact (X2_clean_raises_on_repeated_label Sample.read_float Sample.read_datetime
           Examples.two_rate_codes remap must_haves H).
Defined.

(** X3. The frame [clean] returns never has two columns with the same
    label. *)
Theorem X3_clean_result_has_distinct_labels
        (read_float : string -> option spec_float)
        (read_datetime : string -> option Z)
        (df_part : dataframe) (rm mh : Dict.t string) (df' : dataframe) :
  clean read_float read_datetime df_part rm mh = Some df' ->
  NoDup (Frame.columns df').
Proof.
  intros H. destruct (clean_column_source _ _ _ _ _ _ H) as [Hnd _]. exact Hnd.
Qed.

Lemma X3_witness :
  Sample.clean Examples.trips remap must_haves = Some Examples.trips_cleaned /\
  NoDup (Frame.columns Examples.trips_cleaned).
Proof.
  assert (H : Sample.clean Examples.trips remap must_haves
              = Some Examples.trips_cleaned)
    by (vm_compute; reflexivity).
  split; [exact H|].
  exact (X3_clean_result_has_distinct_labels Sample.read_float Sample.read_datetime
           Examples.trips remap must_haves Examples.trips_cleaned H).
Defined.

(** *** Integer columns *)

Lemma wrap32_range (z : Z) : - 2 ^ 31 <= wrap32 z < 2 ^ 31.
Proof.
  unfold wrap32.
  pose proof (Z.mod_pos_bound (z + 2 ^ 31) (2 ^ 32) ltac:(lia)). lia.
Qed.

Lemma wrap32_small (z : Z) : - 2 ^ 31 <= z < 2 ^ 31 -> wrap32 z = z.
Proof.
  intros H. unfold wrap32. rewrite Z.mod_small by lia. lia.
Qed.

(** X4. A retained column whose dtype name contains "int" comes out of
    [clean] as int32, each integer reduced to its low 32 bits: an integer
    that fits in 32 bits is kept, any other is silently wrapped. *)
Theorem X4_clean_wraps_integers_to_32_bits
        (read_float : string -> option spec_float)
        (read_datetime : string -> option Z)
        (df_part : dataframe) (rm mh : Dict.t string) (df' : dataframe)
        (c s : column) :
  clean read_float read_datetime df_part rm mh = Some df' ->
  In c (df_columns df_part) -> In s (df_columns df') ->
  col_name s = final_name rm (col_name c) ->
  col_dtype c <> "object" ->
  Str.contains "int" (col_dtype c) = true ->
  col_dtype s = "int32" /\
  forall i z, nth_error (col_values c) i = Some (VInt z) ->
              nth_error (col_values s) i = Some (VInt (wrap32 z)) /\
              - 2 ^ 31 <= wrap32 z < 2 ^ 31 /\
              (- 2 ^ 31 <= z < 2 ^ 31 -> wrap32 z = z).
Proof.
  intros H Hc Hs En Hobj Hint.
  assert (Hcol : clean_col read_float read_datetime mh
                           (set_name (final_name rm (col_name c)) c) = Some [s]).
  { eapply clean_column_of; eauto. apply in_renamed. exists c. auto. }
  apply clean_col_not_object in Hcol; [|exact Hobj].
  destruct (downcast_int _ _ (set_name (final_name rm (col_name c)) c) s Hint Hcol)
    as [Hd M].
  split; [exact Hd|]. intros i z Hi.
  cbn [col_values set_name] in M.
  destruct (mapM_Some_nth _ _ _ M i _ Hi) as [b [Hb Hf]].
  simpl in Hf. inversion Hf; subst b.
  split; [exact Hb|]. split; [apply wrap32_range | apply wrap32_small].
Qed.

(** The rate code 5000000000 of the third example trip becomes 705032704. *)
Lemma X4_witness :
  Sample.clean Examples.trips remap must_haves = Some Examples.trips_cleaned /\
  In (mkcol "RatecodeID" "int64" [VInt 1; VInt 1; VInt 5000000000])
     (df_columns Examples.trips) /\
  In (mkcol "rate_code" "int32" [VInt 1; VInt 1; VInt 705032704])
     (df_columns Examples.trips_cleaned) /\
  "rate_code" = final_name remap "RatecodeID" /\
  "int64" <> "object" /\
  Str.contains "int" "int64" = true /\
  ("int32" = "int32" /\
   forall i z,
     nth_error [VInt 1; VInt 1; VInt 5000000000] i = Some (VInt z) ->
     nth_error [VInt 1; VInt 1; VInt 705032704] i = Some (VInt (wrap32 z)) /\
     - 2 ^ 31 <= wrap32 z < 2 ^ 31 /\
     (- 2 ^ 31 <= z < 2 ^ 31 -> wrap32 z = z)).
Proof.
  assert (H : Sample.clean Examples.trips remap must_haves
              = Some Examples.trips_cleaned)
    by (vm_compute; reflexivity).
  assert (Hc : In (mkcol "RatecodeID" "int64" [VInt 1; VInt 1; VInt 5000000000])
                  (df_columns Examples.trips))
    by (simpl; tauto).
  assert (Hs : In (mkcol "rate_code" "int32" [VInt 1; VInt 1; VInt 705032704])
                  (df_columns Examples.trips_cleaned))
    by (simpl; tauto).
  assert (Hn : "rate_code" = final_name remap "RatecodeID") by reflexivity.
  assert (Ho : "int64" <> "object") by discriminate.
  assert (Hi : Str.contains "int" "int64" = true) by reflexivity.
  repeat (split; [assumption|]).
  exact (X4_clean_wraps_integers_to_32_bits Sample.read_float Sample.read_datetime
           Examples.trips remap must_haves Examples.trips_cleaned _ _
           H Hc Hs Hn Ho Hi).
Defined.

(** *** Columns that are dropped *)

Lemma map_filter_names (p : string -> bool) (l : list column) :
  map col_name (filter (fun c => p (col_name c)) l)
  = filter p (map col_name l).
Proof.
  induction l as [|c l IH]; simpl; [reflexivity|].
  destruct (p (col_name c)); simpl; rewrite IH; reflexivity.
Qed.

Lemma renamed_filter (rm : Dict.t string) (p : string -> bool) (df : dataframe) :
  renamed rm (mkdf (df_index df)
                   (filter (fun c => p (final_name rm (col_name c))) (df_columns df)))
  = filter (fun c => p (col_name c)) (renamed rm df).
Proof.
  unfold renamed. cbn [df_columns].
  induction (df_columns df) as [|c l IH]; simpl; [reflexivity|].
  destruct (p (final_name rm (col_name c))); simpl; rewrite IH; reflexivity.
Qed.

Lemma mapM_filter_dropped {A B : Type} (f : A -> option (list B)) (p : A -> bool)
      (l : list A) (css : list (list B)) :
  mapM f l = Some css ->
  (forall a, p a = false -> f a = Some []) ->
  exists css', mapM f (filter p l) = Some css' /\
               List.concat css' = List.concat css.
Proof.
  intros H Hp. revert css H. induction l as [|a l IH]; intros css H; simpl in *.
  - inversion H. exists []. auto.
  - apply bind_Some in H. destruct H as [cs [Ha H]].
    apply bind_Some in H. destruct H as [css0 [Hl H]]. inversion H; subst; clear H.
    destruct (IH css0 Hl) as [css' [M E]].
    destruct (p a) eqn:Pa.
    + simpl. rewrite Ha. simpl. rewrite M. simpl.
      exists (cs :: css'). split; [reflexivity|]. simpl. rewrite E. reflexivity.
    + exists css'. split; [exact M|].
      rewrite (Hp a Pa) in Ha. inversion Ha; subst. simpl. exact E.
Qed.

(** X5. The columns [clean] drops play no part in what it returns: when
    [clean] returns a frame, it returns the same frame for the input
    stripped of every column whose final name is not a key of
    [must_haves]. *)
Theorem X5_clean_ignores_dropped_columns
        (read_float : string -> option spec_float)
        (read_datetime : string -> option Z)
        (df_part : dataframe) (rm mh : Dict.t string) (df' : dataframe) :
  clean read_float read_datetime df_part rm mh = Some df' ->
  clean read_float read_datetime
        (mkdf (df_index df_part)
              (filter (fun c => Dict.mem (final_name rm (col_name c)) mh)
                      (df_columns df_part)))
        rm mh
  = Some df'.
Proof.
  intros H. apply clean_spec in H. destruct H as [Hnd [css [M ->]]].
  apply clean_spec.
  rewrite (renamed_filter rm (fun n => Dict.mem n mh) df_part).
  split.
  - pose proof (map_filter_names (fun n => Dict.mem n mh) (renamed rm df_part))
      as E0.
    cbv beta in E0 |- *. rewrite E0. apply NoDup_filter. exact Hnd.
  - destruct (mapM_filter_dropped _ (fun c => Dict.mem (col_name c) mh) _ _ M)
      as [css' [M' E]].
    { intros c Hc. unfold clean_col.
      apply (branch_dropped mh) in Hc. rewrite Hc. reflexivity. }
    exists css'. split; [exact M'|]. cbn [df_index]. rewrite E. reflexivity.
Qed.

Lemma X5_witness :
  Sample.clean Examples.trips remap must_haves = Some Examples.trips_cleaned /\
  Sample.clean
    (mkdf (df_index Examples.trips)
          (filter (fun c => Dict.mem (final_name remap (col_name c)) must_haves)
                  (df_columns Examples.trips)))
    remap must_haves
  = Some Examples.trips_cleaned.
Proof.
  assert (H : Sample.clean Examples.trips remap must_haves
              = Some Examples.trips_cleaned)
    by (vm_compute; reflexivity).
  split; [exact H|].
  exact (X5_clean_ignores_dropped_columns Sample.read_float Sample.read_datetime
           Examples.trips remap must_haves Examples.trips_cleaned H).
Defined.

(** *** Labels *)

Lemma clean_labels
      (read_float : string -> option spec_float)
      (read_datetime : string -> option Z)
      (df_part : dataframe) (rm mh : Dict.t string) (df' : dataframe) :
  clean read_float read_datetime df_part rm mh = Some df' ->
  Frame.columns df'
  = filter (fun n => Dict.mem n mh) (map (final_name rm) (Frame.columns df_part)).
Proof.
  intros H. apply clean_spec in H. destruct H as [_ [css [Hcss ->]]].
  unfold Frame.columns at 1. cbn [df_columns].
  rewrite (cleaned_names _ _ _ _ _ Hcss), renamed_names. reflexivity.
Qed.

(** The keys of the notebook's [must_haves] are left alone by the renaming. *)
Lemma must_have_is_final (n : string) :
  Dict.mem n must_haves = true -> final_name remap n = n.
Proof.
  intros H. apply dict_mem_keys in H. simpl in H.
  repeat (destruct H as [<-|H]; [reflexivity|]). destruct H.
Qed.

Lemma filter_map_fixed (p : string -> bool) (f : string -> string) (l : list string) :
  (forall n, In n l -> p n = true /\ f n = n) ->
  filter p (map f l) = l.
Proof.
  induction l as [|x l IH]; intros H; simpl; [reflexivity|].
  destruct (H x (or_introl eq_refl)) as [Hp Hf]. rewrite Hf, Hp.
  f_equal. apply IH. intros n Hn. apply H. right. exact Hn.
Qed.

(** X6. Cleaning a frame that [clean] returned keeps its columns: with the
    notebook's [remap] and [must_haves], a second [clean] that returns
    neither drops nor renames nor reorders any column of the first result. *)
Theorem X6_clean_again_keeps_the_labels
        (read_float : string -> option spec_float)
        (read_datetime : string -> option Z)
        (df_part df1 df2 : dataframe) :
  clean read_float read_datetime df_part remap must_haves = Some df1 ->
  clean read_float read_datetime df1 remap must_haves = Some df2 ->
  Frame.columns df2 = Frame.columns df1.
Proof.
  intros H1 H2.
  rewrite (clean_labels _ _ _ _ _ _ H2).
  apply filter_map_fixed. intros n Hn.
  rewrite (clean_labels _ _ _ _ _ _ H1) in Hn.
  apply filter_In in Hn. destruct Hn as [_ Hm].
  split; [exact Hm | apply must_have_is_final; exact Hm].
Qed.

Lemma X6_witness :
  Sample.clean Examples.float_passengers remap must_haves
  = Some Examples.float_passengers_cleaned /\
  Sample.clean Examples.float_passengers_cleaned remap must_haves
  = Some Examples.float_passengers_cleaned /\
  Frame.columns Examples.float_passengers_cleaned
  = Frame.columns Examples.float_passengers_cleaned.
Proof.
  assert (H1 : Sample.clean Examples.float_passengers remap must_haves
               = Some Examples.float_passengers_cleaned)
    by (vm_compute; reflexivity).
  assert (H2 : Sample.clean Examples.float_passengers_cleaned remap must_haves
               = Some Examples.float_passengers_cleaned)
    by (vm_compute; reflexivity).
  split; [exact H1|]. split; [exact H2|].
  exact (X6_clean_again_keeps_the_labels Sample.read_float Sample.read_datetime
           _ _ _ H1 H2).
Defined.

(** *** Edge cases *)

Lemma clean_col_of_empty
      (read_float : string -> option spec_float)
      (read_datetime : string -> option Z)
      (mh : Dict.t string) (c : column) :
  col_values c = [] -> clean_col read_float read_datetime mh c <> None.
Proof.
  intros E. unfold clean_col, downcast, astype.
  destruct (branch_of mh c); cbn [caster String.eqb bind]; rewrite ?E;
    try discriminate.
  cbn [Ascii.eqb Bool.eqb caster String.eqb bind mapM].
  destruct (Str.contains "int" (col_dtype c)).
  - cbn [caster String.eqb Ascii.eqb Bool.eqb bind mapM col_dtype col_values].
    replace (Str.contains "float" "int32") with false by reflexivity.
    cbn [bind]. discriminate.
  - cbn [bind]. destruct (Str.contains "float" (col_dtype c)).
    + rewrite E. cbn [caster String.eqb Ascii.eqb Bool.eqb bind mapM]. discriminate.
    + cbn [bind]. discriminate.
Qed.

(** X7. On a table without rows no cast can fail: if the final labels are
    pairwise distinct, [clean] returns, and the frame it returns has no rows
    either. *)
Theorem X7_clean_of_no_rows
        (read_float : string -> option spec_float)
        (read_datetime : string -> option Z)
        (df_part : dataframe) (rm mh : Dict.t string) :
  (forall c, In c (df_columns df_part) -> col_values c = []) ->
  Str.distinct (map (final_name rm) (Frame.columns df_part)) = true ->
  exists df', clean read_float read_datetime df_part rm mh = Some df' /\
              df_index df' = df_index df_part /\
              forall s, In s (df_columns df') -> col_values s = [].
Proof.
  intros Hempty D.
  apply StrFacts.distinct_NoDup in D. rewrite <- renamed_names in D.
  assert (Hren : forall c, In c (renamed rm df_part) -> col_values c = []).
  { intros c' Hc'. apply in_renamed in Hc'. destruct Hc' as [c [Hc ->]].
    simpl. apply Hempty. exact Hc. }
  destruct (mapM_total (clean_col read_float read_datetime mh) (renamed rm df_part))
    as [css M].
  { intros c Hc. apply clean_col_of_empty. apply Hren. exact Hc. }
  exists (mkdf (df_index df_part) (List.concat css)).
  split; [|split].
  - apply clean_spec. split; [exact D|]. exists css. auto.
  - reflexivity.
  - intros s Hs. cbn [df_columns] in Hs.
    apply (cleaned_columns _ _ _ _ _ M) in Hs. destruct Hs as [c [Hc Hcol]].
    destruct (clean_col_cells _ _ _ _ _ Hcol) as [f Mf].
    rewrite (Hren c Hc) in Mf. inversion Mf. reflexivity.
Qed.

Lemma X7_witness :
  (forall c, In c (df_columns Examples.no_trips) -> col_values c = []) /\
  Str.distinct (map (final_name remap) (Frame.columns Examples.no_trips)) = true /\
  (exists df', Sample.clean Examples.no_trips remap must_haves = Some df' /\
               df_index df' = df_index Examples.no_trips /\
               forall s, In s (df_columns df') -> col_values s = []).
Proof.
  assert (H1 : forall c, In c (df_columns Examples.no_trips) -> col_values c = []).
  { simpl. intros c [<-|[<-|[<-|[<-|[]]]]]; reflexivity. }
  assert (H2 : Str.distinct
                 (map (final_name remap) (Frame.columns Examples.no_trips)) = true)
    by reflexivity.
  split; [exact H1|]. split; [exact H2|].
  exact (X7_clean_of_no_rows Sample.read_float Sample.read_datetime
           Examples.no_trips remap must_haves H1 H2).
Defined.

(** X8. Nothing is coerced: one string that the library cannot read as a
    number, in a retained object column other than the two datetime
    columns, makes [clean] raise. *)
Theorem X8_clean_raises_on_unreadable_number
        (read_float : string -> option spec_float)
        (read_datetime : string -> option Z)
        (df_part : dataframe) (rm mh : Dict.t string) (c : column) (t : string) :
  In c (df_columns df_part) ->
  Dict.mem (final_name rm (col_name c)) mh = true ->
  col_dtype c = "object" ->
  Str.mem (final_name rm (col_name c)) ["pickup_datetime"; "dropoff_datetime"]
  = false ->
  In (VStr t) (col_values c) ->
  read_float t = None ->
  clean read_float read_datetime df_part rm mh = None.
Proof.
  intros Hc Hm Hd Hdt Hin Hread.
  destruct (clean read_float read_datetime df_part rm mh) as [df'|] eqn:C;
    [|reflexivity].
  exfalso. apply clean_spec in C. destruct C as [_ [css [M _]]].
  assert (Hren : In (set_name (final_name rm (col_name c)) c) (renamed rm df_part)).
  { apply in_renamed. exists c. auto. }
  destruct (mapM_Some_in _ _ _ M _ Hren) as [cs [Hcs _]].
  unfold clean_col, branch_of in Hcs. cbn [col_name col_dtype set_name] in Hcs.
  rewrite Hm, Hd, Hdt in Hcs. cbn [negb] in Hcs.
  replace (String.eqb "object" "object") with true in Hcs by reflexivity.
  apply bind_Some in Hcs. destruct Hcs as [s [Ha _]].
  unfold astype in Ha. apply bind_Some in Ha. destruct Ha as [f [Hf Ha]].
  inversion Hf; subst f.
  apply bind_Some in Ha. destruct Ha as [vs [Hvs _]].
  cbn [col_values set_name] in Hvs.
  destruct (mapM_Some_in _ _ _ Hvs _ Hin) as [b [Hb _]].
  simpl in Hb. rewrite Hread in Hb. discriminate Hb.
Qed.

Lemma X8_witness :
  In (mkcol "fare_amount" "object" [VStr "12"; VStr "n/a"])
     (df_columns Examples.bad_fares) /\
  Dict.mem (final_name remap "fare_amount") must_haves = true /\
  "object" = "object" /\
  Str.mem (final_name remap "fare_amount") ["pickup_datetime"; "dropoff_datetime"]
  = false /\
  In (VStr "n/a") [VStr "12"; VStr "n/a"] /\
  Sample.read_float "n/a" = None /\
  Sample.clean Examples.bad_fares remap must_haves = None.
Proof.
  assert (H1 : In (mkcol "fare_amount" "object" [VStr "12"; VStr "n/a"])
                  (df_columns Examples.bad_fares)) by (simpl; tauto).
  assert (H2 : Dict.mem (final_name remap "fare_amount") must_haves = true)
    by reflexivity.
  assert (H3 : "object" = "object") by reflexivity.
  assert (H4 : Str.mem (final_name remap "fare_amount")
                       ["pickup_datetime"; "dropoff_datetime"] = false)
    by reflexivity.
  assert (H5 : In (VStr "n/a") [VStr "12"; VStr "n/a"]) by (simpl; tauto).
  assert (H6 : Sample.read_float "n/a" = None) by reflexivity.
  repeat (split; [assumption|]).
  exact (X8_clean_raises_on_unreadable_number Sample.read_float Sample.read_datetime
           Examples.bad_fares remap must_haves _ "n/a" H1 H2 H3 H4 H5 H6).
Defined.

(** * Further properties of the filter step and of the ETL cell *)

Lemma keep_length_le {A : Type} (mask : list bool) (l : list A) :
  (List.length (Query.keep mask l) <= List.length l)%nat.
Proof.
  revert l. induction mask as [|b mask IH]; intros [|a l]; simpl; try lia.
  specialize (IH l). destruct b; simpl; lia.
Qed.

Lemma keep_In {A : Type} (mask : list bool) (l : list A) (a : A) :
  In a (Query.keep mask l) -> In a l.
Proof.
  revert l. induction mask as [|b mask IH]; intros [|x l]; simpl; try tauto.
  destruct b; simpl; intros H.
  - destruct H as [H|H]; [left; exact H | right; apply IH; exact H].
  - right. apply IH. exact H.
Qed.

Lemma keep_keep {A : Type} (m : list bool) (l : list A) :
  Query.keep (Query.keep m m) (Query.keep m l) = Query.keep m l.
Proof.
  revert l. induction m as [|b m IH]; intros l.
  - reflexivity.
  - destruct l as [|a l].
    + simpl. destruct (if b then b :: Query.keep m m else Query.keep m m);
        reflexivity.
    + destruct b; simpl; rewrite IH; reflexivity.
Qed.

Lemma mapM_keep {A B : Type} (f : A -> option B) (m : list bool)
      (l : list A) (l' : list B) :
  mapM f l = Some l' -> mapM f (Query.keep m l) = Some (Query.keep m l').
Proof.
  revert l l'. induction m as [|b m IH]; intros l l' H.
  - reflexivity.
  - destruct l as [|a l]; simpl in H.
    + inversion H. reflexivity.
    + apply bind_Some in H. destruct H as [x [Fa H]].
      apply bind_Some in H. destruct H as [xs [Hl H]]. inversion H; subst; clear H.
      destruct b; simpl.
      * rewrite Fa. simpl. rewrite (IH l xs Hl). reflexivity.
      * apply IH. exact Hl.
Qed.

Lemma and_masks_nil_r (m : list bool) : Query.and_masks m [] = [].
Proof. destruct m; reflexivity. Qed.

Lemma and_masks_keep (m a b : list bool) :
  Query.and_masks (Query.keep m a) (Query.keep m b)
  = Query.keep m (Query.and_masks a b).
Proof.
  revert a b. induction m as [|x m IH]; intros a b.
  - reflexivity.
  - destruct a as [|a0 a]; [reflexivity|].
    destruct b as [|b0 b].
    + simpl. apply and_masks_nil_r.
    + destruct x; simpl; rewrite IH; reflexivity.
Qed.

(** The mask of a filtered frame is the filtered mask of the frame. *)
Lemma eval_apply_mask (m : list bool) (df : dataframe) (e : expr) :
  forall me, Query.eval df e = Some me ->
             Query.eval (Query.apply_mask m df) e = Some (Query.keep m me).
Proof.
  induction e as [col k|col k|a IHa b IHb]; intros me H; simpl in *.
  - rewrite QueryFacts.getitem_apply_mask.
    apply bind_Some in H. destruct H as [s [G H]]. rewrite G. cbn [bind col_values].
    apply mapM_keep. exact H.
  - rewrite QueryFacts.getitem_apply_mask.
    apply bind_Some in H. destruct H as [s [G H]]. rewrite G. cbn [bind col_values].
    apply mapM_keep. exact H.
  - apply bind_Some in H. destruct H as [m1 [H1 H]].
    apply bind_Some in H. destruct H as [m2 [H2 H]]. inversion H; subst; clear H.
    rewrite (IHa m1 H1), (IHb m2 H2). cbn [bind].
    rewrite and_masks_keep. reflexivity.
Qed.

Lemma apply_mask_twice (m : list bool) (df : dataframe) :
  Query.apply_mask (Query.keep m m) (Query.apply_mask m df) = Query.apply_mask m df.
Proof.
  unfold Query.apply_mask. cbn [df_index df_columns]. f_equal.
  - apply keep_keep.
  - rewrite map_map. apply map_ext. intros c. cbn [col_name col_dtype col_values].
    rewrite keep_keep. reflexivity.
Qed.

Lemma eval_needs_columns (df : dataframe) (e : expr) :
  forall m, Query.eval df e = Some m ->
            forall col, In col (cols_of e) -> Frame.getitem df col <> None.
Proof.
  induction e as [c k|c k|a IHa b IHb]; intros m H col Hin; simpl in *.
  - destruct Hin as [<-|[]]. apply bind_Some in H. destruct H as [s [G _]]. congruence.
  - destruct Hin as [<-|[]]. apply bind_Some in H. destruct H as [s [G _]]. congruence.
  - apply bind_Some in H. destruct H as [m1 [H1 H]].
    apply bind_Some in H. destruct H as [m2 [H2 _]].
    apply in_app_or in Hin. destruct Hin as [Hin|Hin]; eauto.
Qed.

Lemma getitem_name (df : dataframe) (col : string) (c : column) :
  Frame.getitem df col = Some c -> col_name c = col.
Proof.
  unfold Frame.getitem. intros H.
  destruct (filter (Frame.named col) (df_columns df)) as [|x [|y l]] eqn:E;
    try discriminate.
  inversion H; subst x.
  assert (Hin : In c (filter (Frame.named col) (df_columns df)))
    by (rewrite E; left; reflexivity).
  apply filter_In in Hin. apply FrameFacts.named_true. tauto.
Qed.

Lemma select_columns (df df' : dataframe) (names : list string) :
  Frame.select df names = Some df' ->
  Frame.columns df' = names /\ df_index df' = df_index df.
Proof.
  unfold Frame.select. intros H.
  apply bind_Some in H. destruct H as [cs [M H]]. inversion H; subst; clear H.
  split; [|reflexivity]. unfold Frame.columns. cbn [df_columns].
  revert cs M. induction names as [|n names IH]; intros cs M; simpl in M.
  - inversion M. reflexivity.
  - apply bind_Some in M. destruct M as [c [G M]].
    apply bind_Some in M. destruct M as [cs' [M' M]]. inversion M; subst; clear M.
    simpl. rewrite (getitem_name _ _ _ G), (IH cs' M'). reflexivity.
Qed.

(** X9. After the filter step every row is in range: at every row of the
    frame it returns, the fare, the passenger count and the four coordinates
    are present and strictly inside their bounds. *)
Theorem X9_filtered_rows_are_in_range (df df' : dataframe) :
  filter_step df = Some df' ->
  forall j, (j < List.length (df_index df'))%nat -> row_in_range df' j.
Proof.
  intros H j Hj.
  destruct (QueryFacts.filter_step_mask df df' H) as [q [mask [Hq [Hm ->]]]].
  cbn [df_index Query.apply_mask] in Hj.
  apply nth_error_Some in Hj. rewrite QueryFacts.keep_nth_error in Hj.
  destruct (nth_error (Query.kept_rows mask) j) as [i|] eqn:Ei; [|congruence].
  assert (Hi : row_in_range df i).
  { apply (QueryFacts.holds_query _ _ _ Hq).
    apply (QueryFacts.eval_holds _ _ _ Hm).
    apply QueryFacts.kept_rows_iff. eapply nth_error_In; eauto. }
  unfold row_in_range in *. rewrite !QueryFacts.cell_apply_mask, Ei. exact Hi.
Qed.

Lemma X9_witness :
  filter_step Examples.trips_cleaned
  = Some (Query.apply_mask [true; false; false] Examples.trips_cleaned) /\
  (forall j,
      (j < List.length
             (df_index (Query.apply_mask [true; false; false] Examples.trips_cleaned)))%nat ->
      row_in_range (Query.apply_mask [true; false; false] Examples.trips_cleaned) j).
Proof.
  assert (H : filter_step Examples.trips_cleaned
              = Some (Query.apply_mask [true; false; false] Examples.trips_cleaned))
    by (vm_compute; reflexivity).
  split; [exact H|].
  exact (X9_filtered_rows_are_in_range Examples.trips_cleaned _ H).
Defined.

(** X10. The filter step needs all six columns it names: on a frame that
    lacks any one of them the query raises. *)
Theorem X10_filter_raises_without_a_queried_column (df : dataframe) (col : string) :
  In col [ "fare_amount"; "passenger_count"; "pickup_longitude";
           "dropoff_longitude"; "pickup_latitude"; "dropoff_latitude" ] ->
  ~ In col (Frame.columns df) ->
  filter_step df = None.
Proof.
  intros Hin Hmiss.
  destruct (filter_step df) as [df'|] eqn:F; [|reflexivity]. exfalso.
  destruct (QueryFacts.filter_step_mask df df' F) as [q [mask [Hq [Hm _]]]].
  apply (eval_needs_columns df q mask Hm col).
  - inversion Hq; subst q. simpl. simpl in Hin. tauto.
  - unfold Frame.getitem.
    rewrite (FrameFacts.filter_named_absent (df_columns df) col Hmiss). reflexivity.
Qed.

(** A frame of features only has no fare to filter on. *)
Lemma X10_witness :
  In "fare_amount"
     [ "fare_amount"; "passenger_count"; "pickup_longitude";
       "dropoff_longitude"; "pickup_latitude"; "dropoff_latitude" ] /\
  ~ In "fare_amount" (Frame.columns Examples.X5) /\
  filter_step Examples.X5 = None.
Proof.
  assert (H1 : In "fare_amount"
                  [ "fare_amount"; "passenger_count"; "pickup_longitude";
                    "dropoff_longitude"; "pickup_latitude"; "dropoff_latitude" ])
    by (simpl; tauto).
  assert (H2 : ~ In "fare_amount" (Frame.columns Examples.X5))
    by (simpl; intros [H|[]]; discriminate H).
  split; [exact H1|]. split; [exact H2|].
  exact (X10_filter_raises_without_a_queried_column Examples.X5 "fare_amount" H1 H2).
Defined.

(** X11. The filter step only removes rows: the frame it returns has the
    same columns, with the same labels and dtypes in the same order, and
    every row label of the result is a row label of the input. *)
Theorem X11_filter_only_removes_rows (df df' : dataframe) :
  filter_step df = Some df' ->
  map (fun c => (col_name c, col_dtype c)) (df_columns df')
  = map (fun c => (col_name c, col_dtype c)) (df_columns df) /\
  (List.length (df_index df') <= List.length (df_index df))%nat /\
  (forall l, In l (df_index df') -> In l (df_index df)) /\
  (forall c', In c' (df_columns df') ->
              exists c, In c (df_columns df) /\ col_name c' = col_name c /\
                        forall v, In v (col_values c') -> In v (col_values c)).
Proof.
  intros H.
  destruct (QueryFacts.filter_step_mask df df' H) as [q [mask [_ [_ ->]]]].
  unfold Query.apply_mask. cbn [df_index df_columns].
  split; [|split; [|split]].
  - rewrite map_map. reflexivity.
  - apply keep_length_le.
  - intros l. apply keep_In.
  - intros c' Hc'. apply in_map_iff in Hc'. destruct Hc' as [c [<- Hc]].
    exists c. cbn [col_name col_values]. split; [exact Hc|].
    split; [reflexivity|]. intros v. apply keep_In.
Qed.

Lemma X11_witness :
  filter_step Examples.trips_cleaned
  = Some (Query.apply_mask [true; false; false] Examples.trips_cleaned) /\
  (let df := Examples.trips_cleaned in
   let df' := Query.apply_mask [true; false; false] Examples.trips_cleaned in
   map (fun c => (col_name c, col_dtype c)) (df_columns df')
   = map (fun c => (col_name c, col_dtype c)) (df_columns df) /\
   (List.length (df_index df') <= List.length (df_index df))%nat /\
   (forall l, In l (df_index df') -> In l (df_index df)) /\
   (forall c', In c' (df_columns df') ->
               exists c, In c (df_columns df) /\ col_name c' = col_name c /\
                         forall v, In v (col_values c') -> In v (col_values c))).
Proof.
  assert (H : filter_step Examples.trips_cleaned
              = Some (Query.apply_mask [true; false; false] Examples.trips_cleaned))
    by (vm_compute; reflexivity).
  split; [exact H|].
  exact (X11_filter_only_removes_rows Examples.trips_cleaned _ H).
Defined.

(** X12. Filtering twice is filtering once: on the frame it returned, the
    filter step returns that same frame. *)
Theorem X12_filter_step_is_idempotent (df df' : dataframe) :
  filter_step df = Some df' -> filter_step df' = Some df'.
Proof.
  intros H.
  destruct (QueryFacts.filter_step_mask df df' H) as [q [mask [Hq [Hm ->]]]].
  unfold filter_step, Query.query. rewrite Hq. cbn [bind].
  rewrite (eval_apply_mask mask df q mask Hm). cbn [bind].
  rewrite apply_mask_twice. reflexivity.
Qed.

Lemma X12_witness :
  filter_step Examples.trips_cleaned
  = Some (Query.apply_mask [true; false; false] Examples.trips_cleaned) /\
  filter_step (Query.apply_mask [true; false; false] Examples.trips_cleaned)
  = Some (Query.apply_mask [true; false; false] Examples.trips_cleaned).
Proof.
  assert (H : filter_step Examples.trips_cleaned
              = Some (Query.apply_mask [true; false; false] Examples.trips_cleaned))
    by (vm_compute; reflexivity).
  split; [exact H|].
  exact (X12_filter_step_is_idempotent Examples.trips_cleaned _ H).
Defined.

(** X13. What the ETL cell hands on has exactly the columns of [fields], in
    that order: the two timestamps are cleaned and then left behind. Its rows
    carry row labels of the input. *)
Theorem X13_etl_returns_the_fields
        (read_float : string -> option spec_float)
        (read_datetime : string -> option Z)
        (ddf taxi_df : dataframe) :
  etl read_float read_datetime ddf = Some taxi_df ->
  Frame.columns taxi_df = fields /\
  ~ In "pickup_datetime" (Frame.columns taxi_df) /\
  ~ In "dropoff_datetime" (Frame.columns taxi_df) /\
  forall l, In l (df_index taxi_df) -> In l (df_index ddf).
Proof.
  unfold etl. intros H.
  apply bind_Some in H. destruct H as [cleaned [Hclean H]].
  apply bind_Some in H. destruct H as [filtered [Hfilter Hselect]].
  destruct (select_columns _ _ _ Hselect) as [Hcols Hidx].
  rewrite Hcols. split; [reflexivity|].
  split; [|split].
  - unfold fields. simpl. intros H.
    repeat (destruct H as [H|H]; [discriminate H|]). exact H.
  - unfold fields. simpl. intros H.
    repeat (destruct H as [H|H]; [discriminate H|]). exact H.
  - intros l Hl. rewrite Hidx in Hl.
    destruct (QueryFacts.filter_step_mask _ _ Hfilter) as [q [mask [_ [_ ->]]]].
    cbn [df_index Query.apply_mask] in Hl. apply keep_In in Hl.
    apply clean_spec in Hclean. destruct Hclean as [_ [css [_ ->]]]. exact Hl.
Qed.

Lemma X13_witness :
  Sample.etl Examples.trips = Some Examples.trips_training /\
  (Frame.columns Examples.trips_training = fields /\
   ~ In "pickup_datetime" (Frame.columns Examples.trips_training) /\
   ~ In "dropoff_datetime" (Frame.columns Examples.trips_training) /\
   forall l, In l (df_index Examples.trips_training) ->
             In l (df_index Examples.trips)).
Proof.
  assert (H : Sample.etl Examples.trips = Some Examples.trips_training)
    by (vm_compute; reflexivity).
  split; [exact H|].
  exact (X13_etl_returns_the_fields Sample.read_float Sample.read_datetime
           Examples.trips Examples.trips_training H).
Defined.

(** * Features and labels *)

Module IndexFacts.
Import Index.














End IndexFacts.







(** * Further properties of the training cells and of notebook 2 *)

(** X16. The split has no effect on what follows: whichever splitter is
    called (any train size, any seed), the kernel ends up the same, with the
    test matrix equal to the training matrix and the predictions scored
    against the labels the model was trained on. *)
Theorem X16_split_has_no_effect
        (Booster : Type)
        (split1 split2 : dataframe -> column -> Z -> Z -> bool ->
                         dataframe * dataframe * column * column)
        (xgb_train : Dict.t string -> DaskDMatrix -> Z ->
                     list (DaskDMatrix * string) -> Booster)
        (xgb_predict : Booster -> DaskDMatrix -> list value)
        (X : dataframe) (y : column) :
  split_train_evaluate Booster split1 xgb_train xgb_predict X y
  = split_train_evaluate Booster split2 xgb_train xgb_predict X y /\
  (let k := split_train_evaluate Booster split1 xgb_train xgb_predict X y in
   k_dmatrix_test k = k_dmatrix_train k /\
   k_y_predict k = xgb_predict (k_model_xgb k) (k_dmatrix_train k) /\
   k_t k = dm_label (k_dmatrix_train k)).
Proof.
  unfold split_train_evaluate, persist.
  destruct (split1 X y 80 42 true) as [[[a1 b1] c1] d1].
  destruct (split2 X y 80 42 true) as [[[a2 b2] c2] d2].
  simpl. repeat split; reflexivity.
Qed.

(** * The rows handed to training *)

Lemma select_getitem (df df' : dataframe) (names : list string) (col : string) :
  Frame.select df names = Some df' -> NoDup names -> In col names ->
  Frame.getitem df' col = Frame.getitem df col.
Proof.
  intros Hsel Hnd Hin.
  destruct (select_columns _ _ _ Hsel) as [Hcols _].
  unfold Frame.select in Hsel.
  apply bind_Some in Hsel. destruct Hsel as [cs [M E]]. inversion E; subst df'.
  destruct (mapM_Some_in _ _ _ M col Hin) as [c [Hg Hc]].
  rewrite Hg. rewrite <- (getitem_name _ _ _ Hg).
  apply getitem_distinct; [|exact Hc].
  unfold Frame.columns in Hcols. cbn [df_columns] in Hcols.
  rewrite Hcols. exact Hnd.
Qed.

(** X18. Every row handed to training is in range: in the frame the ETL
    cell returns, each row has its fare strictly between 0 and 500, its
    passenger count strictly between 0 and 6, and its coordinates inside the
    bounding box. *)
Theorem X18_training_rows_are_in_range
        (read_float : string -> option spec_float)
        (read_datetime : string -> option Z)
        (ddf taxi_df : dataframe) :
  etl read_float read_datetime ddf = Some taxi_df ->
  forall j, (j < List.length (df_index taxi_df))%nat -> row_in_range taxi_df j.
Proof.
  unfold etl. intros H j Hj.
  apply bind_Some in H. destruct H as [cleaned [_ H]].
  apply bind_Some in H. destruct H as [filtered [Hfilter Hselect]].
  destruct (select_columns _ _ _ Hselect) as [_ Hidx].
  rewrite Hidx in Hj.
  destruct (QueryFacts.filter_step_mask _ _ Hfilter) as [q [mask [Hq [Hm E]]]].
  assert (Hrow : row_in_range filtered j).
  { subst filtered. cbn [df_index Query.apply_mask] in Hj.
    apply nth_error_Some in Hj. rewrite QueryFacts.keep_nth_error in Hj.
    destruct (nth_error (Query.kept_rows mask) j) as [i|] eqn:Ei; [|congruence].
    assert (Hi : row_in_range cleaned i).
    { apply (QueryFacts.holds_query _ _ _ Hq).
      apply (QueryFacts.eval_holds _ _ _ Hm).
      apply QueryFacts.kept_rows_iff. eapply nth_error_In; eauto. }
    unfold row_in_range in *. rewrite !QueryFacts.cell_apply_mask, Ei. exact Hi. }
  assert (Hnd : NoDup fields).
  { apply StrFacts.distinct_NoDup. reflexivity. }
  assert (Hcell : forall col, In col fields ->
                              cell taxi_df col j = cell filtered col j).
  { intros col Hcol. unfold cell.
    rewrite (select_getitem _ _ _ _ Hselect Hnd Hcol). reflexivity. }
  unfold row_in_range in *.
  rewrite !Hcell by (unfold fields; simpl; tauto). exact Hrow.
Qed.

Lemma X18_witness :
  Sample.etl Examples.trips = Some Examples.trips_training /\
  (forall j, (j < List.length (df_index Examples.trips_training))%nat ->
             row_in_range Examples.trips_training j).
Proof.
  assert (H : Sample.etl Examples.trips = Some Examples.trips_training)
    by (vm_compute; reflexivity).
  split; [exact H|].
  exact (X18_training_rows_are_in_range Sample.read_float Sample.read_datetime
           Examples.trips Examples.trips_training H).
Defined.
